(** * The master DAG of the astro-sdk integration tests

    A shallow embedding of
    [python-sdk/tests_integration/astro_deploy/master_dag.py]:
    the trigger-set builder [prepare_dag_dependency], the module-level
    script that calls it once per group of example DAGs, the run-report
    aggregator [get_report], and the tasks that start, register and
    terminate the EC2 instance behind the SFTP and FTP connections.

    Python values are modelled as the code uses them: [str] as [string],
    [int] as [Z], [None]-or-[str] as [PyVal], a list as [list], the
    insertion-ordered [dict] of a trigger spec as an association list,
    [os.environ] and the XCom store as [gmap string string].  Exceptions and
    the calls into Airflow, logging and Slack are threaded through a small
    trace-and-error monad; the builder runs in a state-and-error monad whose
    state is the DAG that the operator constructor adds its tasks to. *)

From Stdlib Require Import ZArith String Ascii List DecimalString.
From stdpp Require Import base option list strings gmap.

Local Open Scope string_scope.
Local Open Scope Z_scope.
Local Open Scope list_scope.

(** ** Python values and exceptions *)

(** The line feed of the Python literal backslash-n. *)
Definition LF : string := String (ascii_of_nat 10) EmptyString.

(** A value that is either [None] or a [str]: what [dict.get], [xcom_pull]
    and the nullable [state] column return. *)
Inductive PyVal : Type :=
| PyNone
| PyStr (s : string).

(** [str(v)], as an f-string field formats it. *)
Definition py_str (v : PyVal) : string :=
  match v with
  | PyNone => "None"
  | PyStr s => s
  end.

(** [v == s] for a string literal [s]. *)
Definition py_eq (v : PyVal) (s : string) : bool :=
  match v with
  | PyNone => false
  | PyStr s' => bool_decide (s' = s)
  end.

(** [str(n)] for an [int]. *)
Definition str_int (n : Z) : string :=
  if n <? 0
  then "-" +:+ NilZero.string_of_uint (N.to_uint (Z.to_N (- n)))
  else NilZero.string_of_uint (N.to_uint (Z.to_N n)).

(** [str.join] on the empty separator. *)
Definition join (l : list string) : string := fold_right String.append EmptyString l.

Inductive Exn : Type :=
| KeyError (key : string)
| IndexError (msg : string)
| OtherError (msg : string).

Inductive Result (A : Type) : Type :=
| Ok (a : A)
| Raise (e : Exn).
Arguments Ok {A} a.
Arguments Raise {A} e.

#[global] Instance Result_ret : MRet Result := fun A a => Ok a.
#[global] Instance Result_bind : MBind Result := fun A B f m =>
  match m with
  | Ok a => f a
  | Raise e => Raise e
  end.

(** A computation that appends events of type [E] to a trace and may raise;
    the trace is kept when it raises. *)
Definition Py (E A : Type) : Type := list E -> Result A * list E.

#[global] Instance Py_ret {E} : MRet (Py E) := fun A a tr => (Ok a, tr).
#[global] Instance Py_bind {E} : MBind (Py E) := fun A B f m tr =>
  match m tr with
  | (Ok a, tr') => f a tr'
  | (Raise e, tr') => (Raise e, tr')
  end.

Definition emit {E} (e : E) : Py E unit := fun tr => (Ok tt, tr ++ [e]).

Definition raise {E A} (e : Exn) : Py E A := fun tr => (Raise e, tr).

Definition lift_result {E A} (r : Result A) : Py E A := fun tr => (r, tr).

(** [try: m  except Exception as exception: h exception] *)
Definition try_except {E A} (m : Py E A) (h : Exn -> Py E A) : Py E A := fun tr =>
  match m tr with
  | (Ok a, tr') => (Ok a, tr')
  | (Raise e, tr') => h e tr'
  end.

(** [for x in l: acc = body acc x] *)
Fixpoint for_each {E A B} (body : A -> B -> Py E A) (acc : A) (l : list B) : Py E A :=
  match l with
  | [] => mret acc
  | x :: l' => acc' ← body acc x; for_each body acc' l'
  end.

(** ** The trigger-set builder *)

(** A [dict] with [str] keys and values, in insertion order. *)
Definition PyDict : Type := list (string * string).

(** [list(d.keys())] *)
Definition keys (d : PyDict) : list string := map fst d.

(** [d.get(k)] *)
Fixpoint dict_get (d : PyDict) (k : string) : PyVal :=
  match d with
  | [] => PyNone
  | (k', v) :: d' => if bool_decide (k' = k) then PyStr v else dict_get d' k
  end.

(** [l[0]] *)
Definition index0 {A} (l : list A) : Result A :=
  match l with
  | [] => Raise (IndexError "list index out of range")
  | x :: _ => Ok x
  end.

Record TriggerDagRunOperator : Type := {
  task_id : string;
  trigger_dag_id : PyVal;
  trigger_run_id : string;
  wait_for_completion : bool;
  reset_dag_run : bool;
  execution_date : string;
  allowed_states : list string
}.

(** *** The DAG under construction and the operator constructor

    [TriggerDagRunOperator(...)] runs the constructor of Airflow's
    [BaseOperator]: it validates the [task_id] with [validate_key] and, when
    a DAG is current, adds the task to it, which fails on a [task_id] that
    the DAG already has.  The current DAG is the state of the builder: the
    task ids added so far, or [None] outside any [with DAG(...)]. *)

Definition DagContext : Type := option (list string).

(** What Airflow answers where the model of strings cannot: whether
    [validate_key] accepts a key that has a character outside ASCII. *)
Record Airflow : Type := {
  non_ascii_key_ok : string -> bool
}.

Definition Build (A : Type) : Type := DagContext -> Result A * DagContext.

#[global] Instance Build_ret : MRet Build := fun A a dag => (Ok a, dag).
#[global] Instance Build_bind : MBind Build := fun A B f m dag =>
  match m dag with
  | (Ok a, dag') => f a dag'
  | (Raise e, dag') => (Raise e, dag')
  end.

Definition build_result {A} (r : Result A) : Build A := fun dag => (r, dag).

Fixpoint for_build {A B} (body : A -> B -> Build A) (acc : A) (l : list B) : Build A :=
  match l with
  | [] => mret acc
  | x :: l' => acc' ← body acc x; for_build body acc' l'
  end.

Definition is_ascii (a : ascii) : bool := (nat_of_ascii a <? 128)%nat.

Fixpoint string_forall (p : ascii -> bool) (s : string) : bool :=
  match s with
  | EmptyString => true
  | String a s' => p a && string_forall p s'
  end.

(** The character class of [KEY_REGEX], on ASCII: a letter, a digit, an
    underscore, a dot or a dash. *)
Definition key_char (a : ascii) : bool :=
  let n := nat_of_ascii a in
  ((48 <=? n) && (n <=? 57) || (65 <=? n) && (n <=? 90) || (97 <=? n) && (n <=? 122)
   || (n =? 95) || (n =? 46) || (n =? 45))%nat.

(** [KEY_REGEX.match(k)]: one or more characters of the class up to the
    end of the string, where the end may also be just before one last line
    feed. *)
Fixpoint key_regex_match (k : string) : bool :=
  match k with
  | EmptyString => false
  | String a k' =>
      key_char a
      && (if bool_decide (k' = LF) then true
          else match k' with
               | EmptyString => true
               | String _ _ => key_regex_match k'
               end)
  end.

(** [validate_key(k)]: the exception that it raises, if any. *)
Definition validate_key (airflow : Airflow) (k : string) : option Exn :=
  if string_forall is_ascii k then
    if (250 <? String.length k)%nat then Some (OtherError "AirflowException")
    else if key_regex_match k then None
    else Some (OtherError "AirflowException")
  else if non_ascii_key_ok airflow k then None
  else Some (OtherError "AirflowException").

(** The constructor of [BaseOperator], as far as it can fail on a
    [task_id]. *)
Definition BaseOperator_init (airflow : Airflow) (task_id : string) : Build unit := fun dag =>
  match validate_key airflow task_id with
  | Some e => (Raise e, dag)
  | None =>
      match dag with
      | None => (Ok tt, None)
      | Some tasks =>
          if bool_decide (task_id ∈ tasks)
          then (Raise (OtherError "DuplicateTaskIdFound"), dag)
          else (Ok tt, Some (tasks ++ [task_id]))
      end
  end.

(** [TriggerDagRunOperator(...)], with the keyword arguments as the fields
    of [op]. *)
Definition TriggerDagRunOperator_init (airflow : Airflow) (op : TriggerDagRunOperator)
    : Build TriggerDagRunOperator :=
  BaseOperator_init airflow (task_id op);;
  mret op.

(** The body of the loop of [prepare_dag_dependency], on the pair
    [(_task_list, _dag_run_ids)]. *)
Definition prepare_step (airflow : Airflow) (execution_time : string)
    (acc : list TriggerDagRunOperator * list string) (_example_dag : PyDict)
    : Build (list TriggerDagRunOperator * list string) :=
  let '(_task_list, _dag_run_ids) := acc in
  _task_id ← build_result (index0 (keys _example_dag));
  let _run_id :=
    (_task_id +:+ "_" +:+ py_str (dict_get _example_dag _task_id) +:+ "_") +:+ execution_time in
  let _dag_run_ids := _dag_run_ids ++ [_run_id] in
  task ← TriggerDagRunOperator_init airflow
    {| task_id := _task_id;
       trigger_dag_id := dict_get _example_dag _task_id;
       trigger_run_id := _run_id;
       wait_for_completion := true;
       reset_dag_run := true;
       execution_date := execution_time;
       allowed_states := ["success"; "failed"] |};
  let _task_list := _task_list ++ [task] in
  mret (_task_list, _dag_run_ids).

Definition prepare_dag_dependency (airflow : Airflow) (task_info : list PyDict)
    (execution_time : string) : Build (list TriggerDagRunOperator * list string) :=
  for_build (prepare_step airflow execution_time) ([], []) task_info.

(** ** The module-level script of [example_master_dag]

    The script opens the DAG, declares its operators, keeps one list
    [dag_run_ids], extends it after every call of [prepare_dag_dependency],
    and hands that list to the [get_report] task as [op_kwargs].  Every
    call of the builder is recorded in the trace, with the DAG as it is at
    the call.  The wiring of the tasks ([chain] and [>>]) neither reads nor
    changes [dag_run_ids] or the task ids of the DAG; it is left out. *)

Record BuilderCall : Type := {
  call_task_info : list PyDict;
  call_execution_time : string;
  call_dag : DagContext
}.

(** Runs a step that builds the DAG, from the DAG [dag]: its result and the
    DAG after it. *)
Definition in_dag {E A} (dag : DagContext) (b : Build A) : Py E (A * DagContext) := fun tr =>
  match b dag with
  | (Ok a, dag') => (Ok (a, dag'), tr)
  | (Raise e, _) => (Raise e, tr)
  end.

(** An operator of the script other than the trigger tasks: only its
    [task_id] matters to the DAG. *)
Definition declare_operator {E} (airflow : Airflow) (task_id : string) (dag : DagContext)
    : Py E DagContext :=
  '(_, dag) ← in_dag dag (BaseOperator_init airflow task_id);
  mret dag.

Definition call_prepare_dag_dependency (airflow : Airflow) (dag : DagContext)
    (task_info : list PyDict) (execution_time : string)
    : Py BuilderCall (list TriggerDagRunOperator * list string * DagContext) :=
  emit {| call_task_info := task_info;
          call_execution_time := execution_time;
          call_dag := dag |};;
  in_dag dag (prepare_dag_dependency airflow task_info execution_time).

Definition load_file_task_info : list PyDict := [
  [("example_google_bigquery_gcs_load_and_save", "example_google_bigquery_gcs_load_and_save")];
  [("example_amazon_s3_postgres_load_and_save", "example_amazon_s3_postgres_load_and_save")];
  [("example_amazon_s3_postgres", "example_amazon_s3_postgres")];
  [("example_load_file", "example_load_file")]
].

Definition transform_task_info : list PyDict := [
  [("example_amazon_s3_snowflake_transform", "example_amazon_s3_snowflake_transform")];
  [("example_transform_mssql", "example_transform_mssql")]
].

Definition dataframe_task_info : list PyDict := [
  [("example_dataframe", "example_dataframe")]
].

Definition append_task_info : list PyDict := [
  [("example_append", "example_append")];
  [("example_snowflake_partial_table_with_append", "example_snowflake_partial_table_with_append")]
].

(** The script binds this list to the name [merge_trigger_tasks], which it
    then rebinds to the tasks that the builder returns for it. *)
Definition merge_task_info : list PyDict := [
  [("example_merge_bigquery", "example_merge_bigquery")]
].

Definition dynamic_task_info : list PyDict := [
  [("example_dynamic_map_task", "example_dynamic_map_task")];
  [("example_dynamic_task_template", "example_dynamic_task_template")]
].

Definition data_validation_dags_info : list PyDict := [
  [("data_validation_check_column", "data_validation_check_column")]
].

Definition dataset_dags_info : list PyDict := [
  [("example_dataset_producer", "example_dataset_producer")]
].

Definition cleanup_snowflake_task_info : list PyDict := [
  [("example_snowflake_cleanup", "example_snowflake_cleanup")]
].

(** What the script leaves behind: the trigger tasks of every group, the
    [dag_run_ids] keyword argument of the [get_report] task and the task
    ids of the DAG. *)
Record MasterDag : Type := {
  trigger_task_groups : list (list TriggerDagRunOperator);
  report_op_kwargs_dag_run_ids : list string;
  dag_task_ids : DagContext
}.

Definition example_master_dag (airflow : Airflow) : Py BuilderCall MasterDag :=
  let dag : DagContext := Some [] in
  dag ← declare_operator airflow "start" dag;
  dag ← declare_operator airflow "list_installed_pip_packages" dag;
  dag ← declare_operator airflow "get_airflow_version" dag;
  dag ← declare_operator airflow "get_airflow_executor" dag;
  dag ← declare_operator airflow "get_astro_sdk_version" dag;
  dag ← declare_operator airflow "get_astro_cloud_provider" dag;
  dag ← declare_operator airflow "start_sftp_ftp_services" dag;
  dag ← declare_operator airflow "create_sftp_ftp_default_airflow_connection" dag;
  dag ← declare_operator airflow "terminate_instance" dag;
  let dag_run_ids : list string := [] in
  '(load_file_trigger_tasks, ids, dag) ←
    call_prepare_dag_dependency airflow dag load_file_task_info "{{ ds }}";
  let dag_run_ids := dag_run_ids ++ ids in
  '(transform_trigger_tasks, ids, dag) ←
    call_prepare_dag_dependency airflow dag transform_task_info "{{ ds }}";
  let dag_run_ids := dag_run_ids ++ ids in
  '(dataframe_trigger_tasks, ids, dag) ←
    call_prepare_dag_dependency airflow dag dataframe_task_info "{{ ds }}";
  let dag_run_ids := dag_run_ids ++ ids in
  '(append_trigger_tasks, ids, dag) ←
    call_prepare_dag_dependency airflow dag append_task_info "{{ ds }}";
  let dag_run_ids := dag_run_ids ++ ids in
  '(merge_trigger_tasks, ids, dag) ←
    call_prepare_dag_dependency airflow dag merge_task_info "{{ ds }}";
  let dag_run_ids := dag_run_ids ++ ids in
  '(dynamic_task_trigger_tasks, ids, dag) ←
    call_prepare_dag_dependency airflow dag dynamic_task_info "{{ ds }}";
  let dag_run_ids := dag_run_ids ++ ids in
  '(data_validation_trigger_tasks, ids, dag) ←
    call_prepare_dag_dependency airflow dag data_validation_dags_info "{{ ds }}";
  let dag_run_ids := dag_run_ids ++ ids in
  '(dataset_trigger_tasks, ids, dag) ←
    call_prepare_dag_dependency airflow dag dataset_dags_info "{{ ds }}";
  let dag_run_ids := dag_run_ids ++ ids in
  '(cleanup_snowflake_trigger_tasks, ids, dag) ←
    call_prepare_dag_dependency airflow dag cleanup_snowflake_task_info "{{ ds }}";
  let dag_run_ids := dag_run_ids ++ ids in
  dag ← declare_operator airflow "get_report" dag;
  dag ← declare_operator airflow "end" dag;
  mret {| trigger_task_groups := [
            load_file_trigger_tasks; transform_trigger_tasks; dataframe_trigger_tasks;
            append_trigger_tasks; merge_trigger_tasks; dynamic_task_trigger_tasks;
            data_validation_trigger_tasks; dataset_trigger_tasks;
            cleanup_snowflake_trigger_tasks ];
          report_op_kwargs_dag_run_ids := dag_run_ids;
          dag_task_ids := dag |}.

(** ** The run-report aggregator *)

Module TaskInstance.
Record t : Type := {
  task_id : string;
  state : PyVal
}.
End TaskInstance.

Module DagRun.
Record t : Type := {
  dag_id : string;
  run_id : string;
  state : string;
  task_instances : list TaskInstance.t
}.
End DagRun.

Module SlackWebhookOperator.
Record t : Type := {
  task_id : string;
  slack_webhook_conn_id : string;
  message : string;
  channel : string;
  username : string
}.
End SlackWebhookOperator.

(** What the function reads from outside: the process environment, the
    [DagRun] table behind the session, and how the Slack webhook answers
    (an exception, or nothing when the message went out). *)
Record World : Type := {
  os_environ : gmap string string;
  dag_run_table : list DagRun.t;
  slack_execute : SlackWebhookOperator.t -> option Exn
}.

(** The keyword arguments [**context]: the XCom store behind [context["ti"]]
    and the master run [context["dag_run"]]. *)
Record Context : Type := {
  ti_xcom : gmap string string;
  dag_run : DagRun.t
}.

Inductive Event : Type :=
| SessionQuery (dag_run_ids : list string)
| XComPull (task_ids : string)
| GetTaskInstances (dr : DagRun.t)
| LoggingInfo (msg : string)
| LoggingException (msg : string)
| SlackExecute (op : SlackWebhookOperator.t).

(** [os.getenv(key, default)] *)
Definition os_getenv (w : World) (key default_value : string) : string :=
  default default_value (os_environ w !! key).

(** [os.environ[key]] *)
Definition os_environ_getitem (w : World) (key : string) : Py Event string :=
  match os_environ w !! key with
  | Some v => mret v
  | None => raise (KeyError key)
  end.

Definition SLACK_CHANNEL (w : World) : string := os_getenv w "SLACK_CHANNEL" "#provider-alert".
Definition SLACK_WEBHOOK_CONN (w : World) : string := os_getenv w "SLACK_WEBHOOK_CONN" "http_slack".
Definition SLACK_USERNAME (w : World) : string := os_getenv w "SLACK_USERNAME" "airflow_app".

(** [session.query(DagRun).filter(DagRun.run_id.in_(dag_run_ids)).all()] *)
Definition session_query_dag_runs (w : World) (dag_run_ids : list string)
    : Py Event (list DagRun.t) :=
  emit (SessionQuery dag_run_ids);;
  mret (filter (fun dr => DagRun.run_id dr ∈ dag_run_ids) (dag_run_table w)).

(** [context["ti"].xcom_pull(task_ids=...)] *)
Definition xcom_pull (context : Context) (task_ids : string) : Py Event PyVal :=
  emit (XComPull task_ids);;
  mret (from_option PyStr PyNone (ti_xcom context !! task_ids)).

(** [dr.get_task_instances()] *)
Definition get_task_instances (dr : DagRun.t) : Py Event (list TaskInstance.t) :=
  emit (GetTaskInstances dr);;
  mret (DagRun.task_instances dr).

(** [SlackWebhookOperator(...).execute(context=None)] *)
Definition slack_webhook_execute (w : World) (op : SlackWebhookOperator.t) : Py Event unit :=
  emit (SlackExecute op);;
  match slack_execute w op with
  | None => mret tt
  | Some e => raise e
  end.

(** The body of the loop over [dr.get_task_instances()], on [failed_tasks]. *)
Definition task_step (failed_tasks : list string) (ti : TaskInstance.t) : list string :=
  let task_code := ":black_circle: " in
  if negb (bool_decide (TaskInstance.task_id ti = "end")
           || bool_decide (TaskInstance.task_id ti = "get_report")) then
    if py_eq (TaskInstance.state ti) "success" then
      failed_tasks
    else if py_eq (TaskInstance.state ti) "failed" then
      let task_code := ":red_circle: " in
      failed_tasks ++ [task_code +:+ " " +:+ TaskInstance.task_id ti +:+ " : "
                       +:+ py_str (TaskInstance.state ti) +:+ " " +:+ LF]
    else if py_eq (TaskInstance.state ti) "upstream_failed" then
      let task_code := ":large_orange_circle: " in
      failed_tasks ++ [task_code +:+ " " +:+ TaskInstance.task_id ti +:+ " : "
                       +:+ py_str (TaskInstance.state ti) +:+ " " +:+ LF]
    else
      failed_tasks ++ [task_code +:+ " " +:+ TaskInstance.task_id ti +:+ " : "
                       +:+ py_str (TaskInstance.state ti) +:+ " " +:+ LF]
  else failed_tasks.

(** The body of the loop over [last_dags_runs], on the triple
    [(dag_count, failed_dag_count, message_list)]. *)
Definition dag_run_step (acc : Z * Z * list string) (dr : DagRun.t)
    : Py Event (Z * Z * list string) :=
  let '(dag_count, failed_dag_count, message_list) := acc in
  let dr_status := " *" +:+ DagRun.dag_id dr +:+ " : " +:+ DagRun.state dr +:+ "* " +:+ LF in
  let dag_count := dag_count + 1 in
  tis ← get_task_instances dr;
  let failed_tasks := fold_left task_step tis [] in
  match failed_tasks with
  | _ :: _ =>
      let message_list := message_list ++ [dr_status] in
      let message_list := message_list ++ failed_tasks in
      let failed_dag_count := failed_dag_count + 1 in
      mret (dag_count, failed_dag_count, message_list)
  | [] => mret (dag_count, failed_dag_count, message_list)
  end.

Definition get_report (w : World) (dag_run_ids : list string) (context : Context)
    : Py Event unit :=
  last_dags_runs ← session_query_dag_runs w dag_run_ids;
  let message_list : list string := [] in
  airflow_version ← xcom_pull context "get_airflow_version";
  airflow_executor ← xcom_pull context "get_airflow_executor";
  astro_sdk_version ← xcom_pull context "get_astro_sdk_version";
  astro_cloud_provider ← xcom_pull context "get_astro_cloud_provider";
  let report_details :=
    map (fun '(header, value) => "*" +:+ header +:+ ":* `" +:+ py_str value +:+ "`" +:+ LF) [
      ("Runtime version", PyStr (os_getenv w "ASTRONOMER_RUNTIME_VERSION" "N/A"));
      ("Python version", PyStr (os_getenv w "PYTHON_VERSION" "N/A"));
      ("Airflow version", airflow_version);
      ("Executor", airflow_executor);
      ("Astro-SDK version", astro_sdk_version);
      ("Cloud provider", astro_cloud_provider)
    ] in
  let report_details := ("Results generated for:" +:+ LF +:+ LF) :: report_details in
  let report_details := report_details ++ [LF] in
  webserver_base_url ← os_environ_getitem w "AIRFLOW__WEBSERVER__BASE_URL";
  let master_dag_deployment_link :=
    webserver_base_url +:+ "/dags/example_master_dag/grid?search=example_master_dag" in
  let deployment_message :=
    LF +:+ " <" +:+ master_dag_deployment_link
       +:+ "|Link> to the master DAG deployment of the above run " +:+ LF in
  '(dag_count, failed_dag_count, message_list) ←
    for_each dag_run_step (0, 0, message_list) last_dags_runs;
  let output_list := [
    "*Total DAGS*: " +:+ str_int dag_count +:+ " " +:+ LF;
    "*Success DAGS*: " +:+ str_int (dag_count - failed_dag_count) +:+ " :green_apple: " +:+ LF;
    "*Failed DAGS*: " +:+ str_int failed_dag_count +:+ " :apple: " +:+ LF +:+ " " +:+ LF
  ] in
  let output_list := report_details ++ output_list in
  let output_list :=
    if 0 <? failed_dag_count
    then (output_list ++ ["*Failure Details:* " +:+ LF]) ++ message_list
    else output_list in
  let dag_run := dag_run context in
  task_instances ← get_task_instances dag_run;
  let task_failure_message_list :=
    map (fun ti => ":red_circle: " +:+ TaskInstance.task_id ti +:+ " " +:+ LF)
        (filter (fun ti => py_eq (TaskInstance.state ti) "failed" = true) task_instances) in
  let output_list :=
    match task_failure_message_list with
    | _ :: _ =>
        (output_list
           ++ [LF +:+ "Some of Master DAG tasks failed, please check with deployment link below "
                  +:+ LF])
          ++ task_failure_message_list
    | [] => output_list
    end in
  let output_list := output_list ++ [deployment_message] in
  emit (LoggingInfo (join output_list));;
  try_except
    (slack_webhook_execute w
       {| SlackWebhookOperator.task_id := "slack_alert";
          SlackWebhookOperator.slack_webhook_conn_id := SLACK_WEBHOOK_CONN w;
          SlackWebhookOperator.message := join output_list;
          SlackWebhookOperator.channel := SLACK_CHANNEL w;
          SlackWebhookOperator.username := SLACK_USERNAME w |})
    (fun exception =>
       emit (LoggingException "Error occur while sending slack alert.");;
       raise exception).

(** ** Vocabulary of the specification

    The definitions below are not part of the program: they name what the
    statements about it speak of. *)

(** A trigger spec, and the one-entry [dict] [{task_id: target_id}] that the
    script writes for it. *)
Record TriggerSpec : Type := {
  spec_task_id : string;
  spec_target_id : string
}.

Definition spec_dict (s : TriggerSpec) : PyDict := [(spec_task_id s, spec_target_id s)].

(** The first item of a [dict], read as a trigger spec. *)
Definition first_spec (d : PyDict) : option TriggerSpec :=
  (fun '(k, v) => {| spec_task_id := k; spec_target_id := v |}) <$> head d.

(** The run identifier [{task_id}_{target_id}_{T}]. *)
Definition run_id_of (T : string) (s : TriggerSpec) : string :=
  spec_task_id s +:+ "_" +:+ spec_target_id s +:+ "_" +:+ T.

Definition trigger_task_of (T : string) (s : TriggerSpec) : TriggerDagRunOperator :=
  {| task_id := spec_task_id s;
     trigger_dag_id := PyStr (spec_target_id s);
     trigger_run_id := run_id_of T s;
     wait_for_completion := true;
     reset_dag_run := true;
     execution_date := T;
     allowed_states := ["success"; "failed"] |}.

(** The groups of example DAGs of the script, in the order it declares them. *)
Definition task_info_groups : list (list PyDict) := [
  load_file_task_info; transform_task_info; dataframe_task_info; append_task_info;
  merge_task_info; dynamic_task_info; data_validation_dags_info; dataset_dags_info;
  cleanup_snowflake_task_info
].

(** The DAG after the tasks [task_ids] were added to it. *)
Definition add_tasks (task_ids : list string) (dag : DagContext) : DagContext :=
  (fun tasks => tasks ++ task_ids) <$> dag.

(** The operator constructor accepts the tasks [task_ids], one after the
    other, from the DAG [dag]: each is a valid key and, inside a DAG, they
    are pairwise distinct and new to the DAG. *)
Definition accepted (airflow : Airflow) (dag : DagContext) (task_ids : list string) : Prop :=
  Forall (fun k => validate_key airflow k = None) task_ids
  /\ match dag with
     | None => True
     | Some tasks => NoDup task_ids /\ Forall (fun k => k ∉ tasks) task_ids
     end.

(** An Airflow that rejects every key with a character outside ASCII. *)
Definition sample_airflow : Airflow := {| non_ascii_key_ok := fun _ => false |}.

(** The records that the session query loads. *)
Definition loaded_runs (w : World) (dag_run_ids : list string) : list DagRun.t :=
  filter (fun dr => DagRun.run_id dr ∈ dag_run_ids) (dag_run_table w).

(** The value that [xcom_pull] returns for an upstream task. *)
Definition pulled (context : Context) (task_ids : string) : PyVal :=
  from_option PyStr PyNone (ti_xcom context !! task_ids).

(** The classification of a child task outcome that is not a success. *)
Inductive Classification : Type :=
| Failed
| UpstreamFailed
| Other.

Definition classify (st : PyVal) : option Classification :=
  if py_eq st "success" then None
  else if py_eq st "failed" then Some Failed
  else if py_eq st "upstream_failed" then Some UpstreamFailed
  else Some Other.

Definition marker (c : Classification) : string :=
  match c with
  | Failed => ":red_circle: "
  | UpstreamFailed => ":large_orange_circle: "
  | Other => ":black_circle: "
  end.

(** The child outcomes that the report leaves out by name. *)
Definition excluded (ti : TaskInstance.t) : bool :=
  bool_decide (TaskInstance.task_id ti = "end")
  || bool_decide (TaskInstance.task_id ti = "get_report").

(** A child outcome that is neither left out by name nor a success. *)
Definition non_success_child (ti : TaskInstance.t) : bool :=
  negb (excluded ti) && negb (py_eq (TaskInstance.state ti) "success").

Definition has_failing (dr : DagRun.t) : bool :=
  existsb non_success_child (DagRun.task_instances dr).

(** The line of a child outcome: none for a success or a task left out. *)
Definition failing_line (ti : TaskInstance.t) : option string :=
  if excluded ti then None
  else c ← classify (TaskInstance.state ti);
       Some (marker c +:+ " " +:+ TaskInstance.task_id ti +:+ " : "
             +:+ py_str (TaskInstance.state ti) +:+ " " +:+ LF).

Definition failing_lines (dr : DagRun.t) : list string :=
  omap failing_line (DagRun.task_instances dr).

Definition run_header (dr : DagRun.t) : string :=
  " *" +:+ DagRun.dag_id dr +:+ " : " +:+ DagRun.state dr +:+ "* " +:+ LF.

(** What a record adds to the message body. *)
Definition failure_block (dr : DagRun.t) : list string :=
  if has_failing dr then run_header dr :: failing_lines dr else [].

Definition dag_count_of (runs : list DagRun.t) : Z := Z.of_nat (length runs).

Definition failed_dag_count_of (runs : list DagRun.t) : Z :=
  Z.of_nat (length (filter (fun dr => has_failing dr = true) runs)).

(** The lines of the report, block by block. *)
Definition header_line (name value : string) : string :=
  "*" +:+ name +:+ ":* `" +:+ value +:+ "`" +:+ LF.

Definition header_block (w : World) (context : Context) : list string := [
  "Results generated for:" +:+ LF +:+ LF;
  header_line "Runtime version" (os_getenv w "ASTRONOMER_RUNTIME_VERSION" "N/A");
  header_line "Python version" (os_getenv w "PYTHON_VERSION" "N/A");
  header_line "Airflow version" (py_str (pulled context "get_airflow_version"));
  header_line "Executor" (py_str (pulled context "get_airflow_executor"));
  header_line "Astro-SDK version" (py_str (pulled context "get_astro_sdk_version"));
  header_line "Cloud provider" (py_str (pulled context "get_astro_cloud_provider"));
  LF
].

Definition summary_lines (runs : list DagRun.t) : list string := [
  "*Total DAGS*: " +:+ str_int (dag_count_of runs) +:+ " " +:+ LF;
  "*Success DAGS*: " +:+ str_int (dag_count_of runs - failed_dag_count_of runs)
    +:+ " :green_apple: " +:+ LF;
  "*Failed DAGS*: " +:+ str_int (failed_dag_count_of runs) +:+ " :apple: " +:+ LF +:+ " " +:+ LF
].

Definition failure_details (runs : list DagRun.t) : list string :=
  if 0 <? failed_dag_count_of runs
  then ("*Failure Details:* " +:+ LF) :: flat_map failure_block runs
  else [].

Definition own_failures (context : Context) : list string :=
  match filter (fun ti => py_eq (TaskInstance.state ti) "failed" = true)
               (DagRun.task_instances (dag_run context)) with
  | [] => []
  | failed =>
      (LF +:+ "Some of Master DAG tasks failed, please check with deployment link below " +:+ LF)
      :: map (fun ti => ":red_circle: " +:+ TaskInstance.task_id ti +:+ " " +:+ LF) failed
  end.

Definition deployment_line (webserver_base_url : string) : string :=
  LF +:+ " <" +:+ (webserver_base_url +:+ "/dags/example_master_dag/grid?search=example_master_dag")
     +:+ "|Link> to the master DAG deployment of the above run " +:+ LF.

Definition report_text (w : World) (context : Context) (runs : list DagRun.t)
    (webserver_base_url : string) : string :=
  join (header_block w context ++ summary_lines runs ++ failure_details runs
        ++ own_failures context ++ [deployment_line webserver_base_url]).

Definition slack_alert (w : World) (text : string) : SlackWebhookOperator.t :=
  {| SlackWebhookOperator.task_id := "slack_alert";
     SlackWebhookOperator.slack_webhook_conn_id := SLACK_WEBHOOK_CONN w;
     SlackWebhookOperator.message := text;
     SlackWebhookOperator.channel := SLACK_CHANNEL w;
     SlackWebhookOperator.username := SLACK_USERNAME w |}.

(** The events before the first line that can raise. *)
Definition reads (dag_run_ids : list string) : list Event := [
  SessionQuery dag_run_ids;
  XComPull "get_airflow_version";
  XComPull "get_airflow_executor";
  XComPull "get_astro_sdk_version";
  XComPull "get_astro_cloud_provider"
].

(** The texts that a trace logs at level info and hands to Slack. *)
Definition report_strings (tr : list Event) : list string :=
  omap (fun ev =>
          match ev with
          | LoggingInfo msg => Some msg
          | SlackExecute op => Some (SlackWebhookOperator.message op)
          | _ => None
          end) tr.

(** The lines of a text, split at every line feed. *)
Fixpoint split_lines_go (cur s : string) : list string :=
  match s with
  | EmptyString => [String.rev cur]
  | String a s' =>
      if bool_decide (a = ascii_of_nat 10)
      then String.rev cur :: split_lines_go EmptyString s'
      else split_lines_go (String a cur) s'
  end.

Definition split_lines (s : string) : list string := split_lines_go EmptyString s.

(** ** Sample inputs *)

Definition sample_master_run : DagRun.t :=
  {| DagRun.dag_id := "example_master_dag";
     DagRun.run_id := "manual__2023-01-01";
     DagRun.state := "running";
     DagRun.task_instances := [
       {| TaskInstance.task_id := "start"; TaskInstance.state := PyStr "success" |};
       {| TaskInstance.task_id := "get_report"; TaskInstance.state := PyStr "running" |} ] |}.

(** A triggered run whose child tasks all succeeded. *)
Definition sample_run_r1 : DagRun.t :=
  {| DagRun.dag_id := "example_load_file";
     DagRun.run_id := "r1";
     DagRun.state := "success";
     DagRun.task_instances := [
       {| TaskInstance.task_id := "load"; TaskInstance.state := PyStr "success" |};
       {| TaskInstance.task_id := "end"; TaskInstance.state := PyStr "success" |} ] |}.

(** A triggered run with one failed child and one child behind it. *)
Definition sample_run_r2 : DagRun.t :=
  {| DagRun.dag_id := "example_append";
     DagRun.run_id := "r2";
     DagRun.state := "failed";
     DagRun.task_instances := [
       {| TaskInstance.task_id := "load"; TaskInstance.state := PyStr "failed" |};
       {| TaskInstance.task_id := "append"; TaskInstance.state := PyStr "upstream_failed" |};
       {| TaskInstance.task_id := "end"; TaskInstance.state := PyStr "upstream_failed" |} ] |}.

(** A run that ended as failed although every child task, other than the
    closing [end] task, succeeded. *)
Definition sample_run_failed_state : DagRun.t :=
  {| DagRun.dag_id := "example_dataframe";
     DagRun.run_id := "r3";
     DagRun.state := "failed";
     DagRun.task_instances := [
       {| TaskInstance.task_id := "transform"; TaskInstance.state := PyStr "success" |};
       {| TaskInstance.task_id := "end"; TaskInstance.state := PyStr "failed" |} ] |}.


(** Every configuration variable but the base URL is unset; only [r1] and
    [r3] have a record; Slack accepts the message. *)
Definition sample_world : World :=
  {| os_environ := {[ "AIRFLOW__WEBSERVER__BASE_URL" := "http://localhost:8080" ]};
     dag_run_table := [sample_run_r1; sample_run_failed_state];
     slack_execute := fun _ => None |}.

(** The same, with a Slack webhook that fails and a record for [r2]. *)
Definition sample_world_slack_down : World :=
  {| os_environ := {[ "AIRFLOW__WEBSERVER__BASE_URL" := "http://localhost:8080" ]};
     dag_run_table := [sample_run_r1; sample_run_r2];
     slack_execute := fun _ => Some (OtherError "HTTP 503") |}.

(** No variable of the environment is set. *)
Definition sample_world_no_base_url : World :=
  {| os_environ := ∅;
     dag_run_table := [sample_run_r1; sample_run_r2];
     slack_execute := fun _ => None |}.

(** The upstream tasks pushed the version and the executor; the two other
    facts were not pushed. *)
Definition sample_context : Context :=
  {| ti_xcom := {[ "get_airflow_version" := "2.5.0";
                   "get_airflow_executor" := "CeleryExecutor" ]};
     dag_run := sample_master_run |}.

(** ** The SFTP and FTP service tasks

    [start_sftp_ftp_services_method], [get_instances_status],
    [create_sftp_ftp_airflow_connection] and [terminate_instance] talk to
    EC2 through boto3, to the XCom table through the running task instance
    and to the connection table through a session.  The two tables, the
    number of [describe_instances] calls made so far and the calls
    themselves are the state of a task; what EC2 answers is given from
    outside.  A task may run out of fuel in the polling loop of
    [start_sftp_ftp_services_method]: that is the only way for it to have no
    result. *)

(** A row of the connection table; [password] is [None] for a row
    without password. *)
Module Connection.
Record t : Type := {
  conn_id : string;
  conn_type : string;
  host : string;
  login : string;
  password : option string
}.
End Connection.

(** [Connection(conn_id=..., conn_type=..., host=..., login=...,
    password=...)]: the setter of [password] keeps a password only when
    it is not empty. *)
Definition Connection_init (conn_id conn_type host login password : string) : Connection.t :=
  {| Connection.conn_id := conn_id;
     Connection.conn_type := conn_type;
     Connection.host := host;
     Connection.login := login;
     Connection.password :=
       if bool_decide (password = EmptyString) then None else Some password |}.

(** One entry of [response["Reservations"][i]["Instances"]]: its
    [["State"]["Name"]] and its [["PublicIpAddress"]], a key that EC2 leaves
    out for an instance without a public address. *)
Record InstanceDetails : Type := {
  State_Name : string;
  PublicIpAddress : option string
}.

(** [response["Reservations"]], each reservation by its [["Instances"]]. *)
Definition DescribeInstancesResponse : Type := list (list InstanceDetails).

Record AwsCreds : Type := {
  aws_access_key_id : string;
  aws_secret_access_key : string;
  region_name : string
}.

Record CreateInstancesArgs : Type := {
  ImageId : string;
  MinCount : Z;
  MaxCount : Z;
  InstanceType : string;
  SecurityGroupIds : list string
}.

(** The second argument of a [print] call. *)
Inductive Printed : Type :=
| PrintedInstances (instance_ids : list string)
| PrintedResponse (response : DescribeInstancesResponse)
| PrintedStr (s : string).

Inductive Effect : Type :=
| Boto3Resource (service : string) (creds : AwsCreds)
| Boto3Client (service : string) (creds : AwsCreds)
| Ec2CreateInstances (args : CreateInstancesArgs)
| Ec2DescribeInstances (InstanceIds : list string)
| Ec2TerminateInstances (InstanceIds : list string)
| Print (label : string) (value : Printed)
| TimeSleep (seconds : Z)
| LogInfo (msg : string)
| SessionCommit.

(** What EC2 answers: the identifiers of the instances it creates, its
    answer to the n-th [describe_instances] call of the run, counted from
    0, and whether a termination fails. *)
Record Ec2 : Type := {
  create_instances : CreateInstancesArgs -> Result (list string);
  describe_instances : nat -> list string -> Result DescribeInstancesResponse;
  terminate_instances : list string -> option Exn
}.

(** The state of a task: the XCom table of the DAG run, keyed by pushing
    task and key; the connection table, keyed by [conn_id], which the
    database keeps unique; the number of [describe_instances] calls; the
    calls made. *)
Record Deployment : Type := {
  xcom_table : gmap (string * string) string;
  connection_table : gmap string Connection.t;
  describe_calls : nat;
  effects : list Effect
}.

Definition Task (A : Type) : Type := Deployment -> option (Result A * Deployment).

#[global] Instance Task_ret : MRet Task := fun A a d => Some (Ok a, d).
#[global] Instance Task_bind : MBind Task := fun A B f m d =>
  match m d with
  | Some (Ok a, d') => f a d'
  | Some (Raise e, d') => Some (Raise e, d')
  | None => None
  end.

Definition out_of_fuel {A} : Task A := fun _ => None.

Definition task_raise {A} (e : Exn) : Task A := fun d => Some (Raise e, d).

Definition task_result {A} (r : Result A) : Task A := fun d => Some (r, d).

Definition effect (e : Effect) : Task unit := fun d =>
  Some (Ok tt,
        {| xcom_table := xcom_table d;
           connection_table := connection_table d;
           describe_calls := describe_calls d;
           effects := effects d ++ [e] |}).

(** [ti.xcom_push(key=key, value=value)] *)
Definition xcom_push (ti : TaskInstance.t) (key value : string) : Task unit := fun d =>
  Some (Ok tt,
        {| xcom_table := <[(TaskInstance.task_id ti, key) := value]> (xcom_table d);
           connection_table := connection_table d;
           describe_calls := describe_calls d;
           effects := effects d |}).

(** [task_instance.xcom_pull(key=key, task_ids=task_ids)] for a list
    [task_ids]: the values found, in the order of [task_ids] (a
    [LazyXComAccess] in the Airflow releases that know the [schedule]
    argument of this DAG). *)
Definition xcom_pull_key (task_instance : TaskInstance.t) (key : string)
    (task_ids : list string) : Task (list string) := fun d =>
  Some (Ok (omap (fun t => xcom_table d !! (t, key)) task_ids), d).

(** [values[0]] on what [xcom_pull] returns for a list of task ids, which
    raises [IndexError(0)] when nothing was found. *)
Definition xcom_index0 (values : list string) : Result string :=
  match values with
  | [] => Raise (IndexError "0")
  | v :: _ => Ok v
  end.

Definition AWS_S3_CREDS (w : World) : AwsCreds :=
  {| aws_access_key_id := os_getenv w "AWS_ACCESS_KEY_ID" "not_set";
     aws_secret_access_key := os_getenv w "AWS_SECRET_ACCESS_KEY" "not_set";
     region_name := "us-east-1" |}.
Definition AMI_ID (w : World) : string := os_getenv w "AWS_AMI_ID" "not_set".
Definition INBOUND_SECURITY_GROUP_ID (w : World) : string :=
  os_getenv w "AWS_INBOUND_SECURITY_GROUP_ID" "not_set".
Definition EC2_INSTANCE_ID_KEY : string := "ec2_instance_id".
Definition INSTANCE_PUBLIC_IP : string := "instance_public_ip".
Definition SFTP_USERNAME (w : World) : string := os_getenv w "SFTP_USERNAME" "not_set".
Definition SFTP_PASSWORD (w : World) : string := os_getenv w "SFTP_PASSWORD" "not_set".
Definition FTP_USERNAME (w : World) : string := os_getenv w "FTP_USERNAME" "not_set".
Definition FTP_PASSWORD (w : World) : string := os_getenv w "FTP_PASSWORD" "not_set".

(** [ec2.create_instances] with the keyword arguments [args] *)
Definition ec2_create_instances (ec2 : Ec2) (args : CreateInstancesArgs)
    : Task (list string) :=
  effect (Ec2CreateInstances args);;
  task_result (create_instances ec2 args).

(** [client.describe_instances(InstanceIds=ids)] *)
Definition ec2_describe_instances (ec2 : Ec2) (ids : list string)
    : Task DescribeInstancesResponse := fun d =>
  Some (describe_instances ec2 (describe_calls d) ids,
        {| xcom_table := xcom_table d;
           connection_table := connection_table d;
           describe_calls := S (describe_calls d);
           effects := effects d ++ [Ec2DescribeInstances ids] |}).

(** [ec2.terminate_instances(InstanceIds=ids)] *)
Definition ec2_terminate_instances (ec2 : Ec2) (ids : list string) : Task unit :=
  effect (Ec2TerminateInstances ids);;
  match terminate_instances ec2 ids with
  | None => mret tt
  | Some e => task_raise e
  end.

(** [instance_details["PublicIpAddress"]] *)
Definition getitem_PublicIpAddress (instance_details : InstanceDetails) : Result string :=
  match PublicIpAddress instance_details with
  | Some ip => Ok ip
  | None => Raise (KeyError "PublicIpAddress")
  end.

(** [current_ti] is [get_current_context()["ti"]]. *)
Definition get_instances_status (w : World) (ec2 : Ec2) (current_ti : TaskInstance.t)
    (instance_id : string) : Task string :=
  effect (Boto3Client "ec2" (AWS_S3_CREDS w));;
  response ← ec2_describe_instances ec2 [instance_id];
  effect (Print "response : " (PrintedResponse response));;
  reservation ← task_result (index0 response);
  instance_details ← task_result (index0 reservation);
  let instance_state := State_Name instance_details in
  effect (Print "instance_state : " (PrintedStr instance_state));;
  (if bool_decide (instance_state = "running") then
     let ti := current_ti in
     value ← task_result (getitem_PublicIpAddress instance_details);
     xcom_push ti INSTANCE_PUBLIC_IP value
   else mret tt);;
  mret instance_state.

(** The [while] loop of [start_sftp_ftp_services_method]; [fuel] bounds
    the number of polls. *)
Fixpoint wait_until_running (w : World) (ec2 : Ec2) (current_ti : TaskInstance.t)
    (instance_id : string) (fuel : nat) : Task unit :=
  match fuel with
  | O => out_of_fuel
  | S fuel' =>
      status ← get_instances_status w ec2 current_ti instance_id;
      if bool_decide (status <> "running") then
        effect (LogInfo
          "Waiting for Instance to be available in running state. Sleeping for 30 seconds.");;
        effect (TimeSleep 30);;
        wait_until_running w ec2 current_ti instance_id fuel'
      else mret tt
  end.

Definition start_sftp_ftp_services_method (w : World) (ec2 : Ec2)
    (current_ti : TaskInstance.t) (fuel : nat) : Task unit :=
  effect (Boto3Resource "ec2" (AWS_S3_CREDS w));;
  instance ← ec2_create_instances ec2
    {| ImageId := AMI_ID w;
       MinCount := 1;
       MaxCount := 1;
       InstanceType := "t2.micro";
       SecurityGroupIds := [INBOUND_SECURITY_GROUP_ID w] |};
  effect (Print "instance : " (PrintedInstances instance));;
  instance_id ← task_result (index0 instance);
  let ti := current_ti in
  xcom_push ti EC2_INSTANCE_ID_KEY instance_id;;
  effect (TimeSleep 120);;
  wait_until_running w ec2 current_ti instance_id fuel.

(** [session.query(Connection).filter_by(conn_id=conn_id).one_or_none()] *)
Definition session_query_connection (conn_id : string) : Task (option Connection.t) := fun d =>
  Some (Ok (connection_table d !! conn_id), d).

(** [session.delete(connection); session.commit()] *)
Definition session_delete_commit (connection : Connection.t) : Task unit := fun d =>
  Some (Ok tt,
        {| xcom_table := xcom_table d;
           connection_table := delete (Connection.conn_id connection) (connection_table d);
           describe_calls := describe_calls d;
           effects := effects d ++ [SessionCommit] |}).

(** [session.add(conn); session.commit()]: the commit fails on a second
    row with the same [conn_id]. *)
Definition session_add_commit (conn : Connection.t) : Task unit := fun d =>
  match connection_table d !! Connection.conn_id conn with
  | Some _ => Some (Raise (OtherError "IntegrityError"), d)
  | None =>
      Some (Ok tt,
            {| xcom_table := xcom_table d;
               connection_table := <[Connection.conn_id conn := conn]> (connection_table d);
               describe_calls := describe_calls d;
               effects := effects d ++ [SessionCommit] |})
  end.

(** The body of the loop over [[sftp_conn, ftp_conn]]. *)
Definition connection_step (conn : Connection.t) : Task unit :=
  connection ← session_query_connection (Connection.conn_id conn);
  match connection with
  | None =>
      effect (LogInfo ("Connection " +:+ Connection.conn_id conn +:+ " doesn't exist."))
  | Some connection =>
      session_delete_commit connection;;
      effect (LogInfo ("Connection " +:+ Connection.conn_id conn +:+ " deleted."))
  end;;
  session_add_commit conn;;
  effect (LogInfo ("Connection " +:+ Connection.conn_id conn +:+ " is created")).

Fixpoint for_task {B} (body : B -> Task unit) (l : list B) : Task unit :=
  match l with
  | [] => mret tt
  | x :: l' => body x;; for_task body l'
  end.

Definition create_sftp_ftp_airflow_connection (w : World) (task_instance : TaskInstance.t)
    : Task unit :=
  hosts ← xcom_pull_key task_instance INSTANCE_PUBLIC_IP ["start_sftp_ftp_services"];
  host ← task_result (xcom_index0 hosts);
  let sftp_conn :=
    Connection_init "sftp_conn" "sftp" host (SFTP_USERNAME w) (SFTP_PASSWORD w) in
  hosts ← xcom_pull_key task_instance INSTANCE_PUBLIC_IP ["start_sftp_ftp_services"];
  host ← task_result (xcom_index0 hosts);
  let ftp_conn :=
    Connection_init "ftp_conn" "ftp" host (FTP_USERNAME w) (FTP_PASSWORD w) in
  for_task connection_step [sftp_conn; ftp_conn].

Definition terminate_instance (w : World) (ec2 : Ec2) (task_instance : TaskInstance.t)
    : Task unit :=
  effect (Boto3Client "ec2" (AWS_S3_CREDS w));;
  ids ← xcom_pull_key task_instance EC2_INSTANCE_ID_KEY ["start_sftp_ftp_services"];
  ec2_instance_id_xcom ← task_result (xcom_index0 ids);
  ec2_terminate_instances ec2 [ec2_instance_id_xcom].

(** The three [PythonOperator]s of the DAG that run these callables, each
    on the task instance of its [task_id]. *)
Definition start_sftp_ftp_services (w : World) (ec2 : Ec2) (fuel : nat) : Task unit :=
  start_sftp_ftp_services_method w ec2
    {| TaskInstance.task_id := "start_sftp_ftp_services";
       TaskInstance.state := PyStr "running" |} fuel.

Definition create_sftp_ftp_default_airflow_connection (w : World) : Task unit :=
  create_sftp_ftp_airflow_connection w
    {| TaskInstance.task_id := "create_sftp_ftp_default_airflow_connection";
       TaskInstance.state := PyStr "running" |}.

Definition terminate_ec2_instance (w : World) (ec2 : Ec2) : Task unit :=
  terminate_instance w ec2
    {| TaskInstance.task_id := "terminate_instance";
       TaskInstance.state := PyStr "running" |}.

(** The total of the [time.sleep] calls among some effects, in seconds. *)
Definition slept (es : list Effect) : Z :=
  foldr (fun e total => match e with TimeSleep seconds => seconds + total | _ => total end) 0 es.

(** The instances that some effects ask EC2 to terminate. *)
Definition terminated (es : list Effect) : list string :=
  flat_map (fun e => match e with Ec2TerminateInstances ids => ids | _ => [] end) es.

(** The messages that some effects log. *)
Definition logged (es : list Effect) : list string :=
  omap (fun e => match e with LogInfo msg => Some msg | _ => None end) es.

(** EC2 reports the first instance of its first reservation in [status]. *)
Definition reports (ec2 : Ec2) (n : nat) (instance_id : string) (details : InstanceDetails)
    : Prop :=
  exists (instances : list InstanceDetails) (reservations : DescribeInstancesResponse),
    describe_instances ec2 n [instance_id] = Ok ((details :: instances) :: reservations).

(** From call [n] on, EC2 reports the instance as not running [k] times,
    and then as running at the address [ip]. *)
Definition running_after (ec2 : Ec2) (n : nat) (instance_id : string) (k : nat) (ip : string)
    : Prop :=
  (forall i : nat, (i < k)%nat ->
     exists details : InstanceDetails,
       reports ec2 (n + i) instance_id details /\ State_Name details <> "running")
  /\ reports ec2 (n + k) instance_id {| State_Name := "running"; PublicIpAddress := Some ip |}.

(** The two connections that [create_sftp_ftp_airflow_connection] writes
    for the address [host]. *)
Definition sftp_conn_of (w : World) (host : string) : Connection.t :=
  Connection_init "sftp_conn" "sftp" host (SFTP_USERNAME w) (SFTP_PASSWORD w).

Definition ftp_conn_of (w : World) (host : string) : Connection.t :=
  Connection_init "ftp_conn" "ftp" host (FTP_USERNAME w) (FTP_PASSWORD w).

(** EC2 creates one instance, reports it as pending twice and then as
    running. *)
Definition sample_ec2 : Ec2 :=
  {| create_instances := fun _ => Ok ["i-0abc"];
     describe_instances := fun n _ =>
       if (n <? 2)%nat
       then Ok [[ {| State_Name := "pending"; PublicIpAddress := None |} ]]
       else Ok [[ {| State_Name := "running"; PublicIpAddress := Some "203.0.113.7" |} ]];
     terminate_instances := fun _ => None |}.

(** EC2 creates one instance, reports it as pending once and then does not
    know it. *)
Definition sample_ec2_unknown_instance : Ec2 :=
  {| create_instances := fun _ => Ok ["i-0abc"];
     describe_instances := fun n _ =>
       if (n <? 1)%nat
       then Ok [[ {| State_Name := "pending"; PublicIpAddress := None |} ]]
       else Raise (OtherError "InvalidInstanceID.NotFound");
     terminate_instances := fun _ => None |}.

(** EC2 never reports the instance as running. *)
Definition sample_ec2_never_running : Ec2 :=
  {| create_instances := fun _ => Ok ["i-0abc"];
     describe_instances := fun _ _ =>
       Ok [[ {| State_Name := "pending"; PublicIpAddress := None |} ]];
     terminate_instances := fun _ => None |}.

(** A DAG run that has pushed nothing, with an older [sftp_conn] row. *)
Definition sample_deployment : Deployment :=
  {| xcom_table := ∅;
     connection_table :=
       {[ "sftp_conn" := {| Connection.conn_id := "sftp_conn";
                            Connection.conn_type := "sftp";
                            Connection.host := "198.51.100.1";
                            Connection.login := "old";
                            Connection.password := Some "old" |} ]};
     describe_calls := 0;
     effects := [] |}.

(** The keyword arguments of the one [create_instances] call. *)
Definition create_args (w : World) : CreateInstancesArgs :=
  {| ImageId := AMI_ID w;
     MinCount := 1;
     MaxCount := 1;
     InstanceType := "t2.micro";
     SecurityGroupIds := [INBOUND_SECURITY_GROUP_ID w] |}.

(** What [connection_step] logs and commits for a connection, given the row
    that it finds. *)
Definition connection_step_effects (conn : Connection.t) (found : option Connection.t)
    : list Effect :=
  match found with
  | None => [LogInfo ("Connection " +:+ Connection.conn_id conn +:+ " doesn't exist.")]
  | Some _ =>
      [SessionCommit; LogInfo ("Connection " +:+ Connection.conn_id conn +:+ " deleted.")]
  end
  ++ [SessionCommit; LogInfo ("Connection " +:+ Connection.conn_id conn +:+ " is created")].

(** Every row of a connection table sits under its own [conn_id]. *)
Definition well_keyed (table : gmap string Connection.t) : Prop :=
  forall (k : string) (c : Connection.t), table !! k = Some c -> Connection.conn_id c = k.

(** EC2 creates no instance. *)
Definition sample_ec2_no_instance : Ec2 :=
  {| create_instances := fun _ => Ok [];
     describe_instances := fun _ _ => Ok [];
     terminate_instances := fun _ => None |}.

(** The run after a start task that found the instance running. *)
Definition sample_deployment_started : Deployment :=
  {| xcom_table :=
       {[ ("start_sftp_ftp_services", "ec2_instance_id") := "i-0abc";
          ("start_sftp_ftp_services", "instance_public_ip") := "203.0.113.7" ]};
     connection_table := connection_table sample_deployment;
     describe_calls := 3;
     effects := [] |}.

(** The environment sets the base URL and an empty [SFTP_PASSWORD]. *)
Definition sample_world_empty_password : World :=
  {| os_environ := {[ "AIRFLOW__WEBSERVER__BASE_URL" := "http://localhost:8080";
                      "SFTP_PASSWORD" := EmptyString ]};
     dag_run_table := [];
     slack_execute := fun _ => None |}.

(** * Properties *)

(** ** Strings and the monads *)

Lemma string_app_assoc (s1 s2 s3 : string) : (s1 +:+ s2) +:+ s3 = s1 +:+ s2 +:+ s3.
Proof.
  induction s1 as [|a s1 IH]; [done|].
  change (String a ((s1 +:+ s2) +:+ s3) = String a (s1 +:+ s2 +:+ s3)).
  by rewrite IH.
Qed.

Lemma join_app (l1 l2 : list string) : join (l1 ++ l2) = join l1 +:+ join l2.
Proof.
  induction l1 as [|s l1 IH]; [done|].
  change (s +:+ join (l1 ++ l2) = (s +:+ join l1) +:+ join l2).
  by rewrite IH, string_app_assoc.
Qed.

(** ** The trigger-set builder *)

Lemma first_spec_Some (d : PyDict) (s : TriggerSpec) :
  first_spec d = Some s <-> exists rest, d = (spec_task_id s, spec_target_id s) :: rest.
Proof.
  destruct s as [k v]. destruct d as [|[k' v'] d]; cbn.
  - split; [done|]. by intros [? ?].
  - split.
    + intros [= -> ->]. by exists d.
    + by intros [rest [= -> -> _]].
Qed.


Lemma mapM_first_spec_dict (specs : list TriggerSpec) :
  mapM first_spec (map spec_dict specs) = Some specs.
Proof.
  apply mapM_Some. apply Forall2_fmap_l, Forall_Forall2_diag, Forall_forall.
  by intros [k v] _.
Qed.

Lemma mapM_first_spec_take (task_info : list PyDict) :
  mapM first_spec (map (take 1) task_info) = mapM first_spec task_info.
Proof.
  induction task_info as [|d task_info IH]; [done|].
  cbn [map mapM]. rewrite IH. by destruct d.
Qed.

Lemma mapM_first_spec_app (l1 l2 : list PyDict) :
  mapM first_spec (l1 ++ l2)
  = s1 ← mapM first_spec l1; s2 ← mapM first_spec l2; Some (s1 ++ s2).
Proof.
  induction l1 as [|d l1 IH].
  - cbn. by destruct (mapM first_spec l2).
  - cbn [app mapM]. rewrite IH.
    destruct (first_spec d); [|done]. cbn.
    destruct (mapM first_spec l1); [|done]. cbn.
    by destruct (mapM first_spec l2).
Qed.

Lemma dict_get_first (k v : string) (d : PyDict) : dict_get ((k, v) :: d) k = PyStr v.
Proof. simpl. by rewrite bool_decide_eq_true_2. Qed.

Lemma add_tasks_app (ks1 ks2 : list string) (dag : DagContext) :
  add_tasks (ks1 ++ ks2) dag = add_tasks ks2 (add_tasks ks1 dag).
Proof. destruct dag as [tasks|]; [|done]. cbn. by rewrite app_assoc. Qed.

Lemma add_tasks_nil (dag : DagContext) : add_tasks [] dag = dag.
Proof. destruct dag as [tasks|]; [|done]. cbn. by rewrite app_nil_r. Qed.

Section builder.
Variables (airflow : Airflow) (T : string).

(** [validate_key] raises nothing but an [AirflowException]. *)
Lemma validate_key_error (k : string) (e : Exn) :
  validate_key airflow k = Some e -> e = OtherError "AirflowException".
Proof.
  unfold validate_key.
  repeat match goal with |- context [if ?b then _ else _] => destruct b end;
    congruence.
Qed.

Lemma accepted_nil (dag : DagContext) : accepted airflow dag [].
Proof. split; [constructor|]. destruct dag; [|done]. split; constructor. Qed.

Lemma accepted_cons (dag : DagContext) (k : string) (ks : list string) :
  accepted airflow dag (k :: ks)
  <-> accepted airflow dag [k] /\ accepted airflow (add_tasks [k] dag) ks.
Proof.
  unfold accepted. destruct dag as [tasks|]; cbn [add_tasks fmap option_fmap option_map].
  - assert (Forall (fun k' => k' ∉ tasks ++ [k]) ks
            <-> Forall (fun k' => k' ∉ tasks) ks /\ k ∉ ks) as Hnew.
    { rewrite !Forall_forall. split.
      - intros H. split.
        + intros x Hx Hin. apply (H x Hx), elem_of_app. by left.
        + intros Hk. apply (H k Hk), elem_of_app. right. by apply list_elem_of_singleton.
      - intros [H1 H2] x Hx [Hin|Hin%list_elem_of_singleton]%elem_of_app.
        + by apply (H1 x).
        + by subst. }
    rewrite !Forall_cons, NoDup_cons, Hnew. split.
    + intros ((Hk & Hks) & (Hnin & Hnd) & Hkt & Hkst).
      repeat split; try done; first [apply NoDup_singleton|by repeat constructor].
    + intros (((Hk & _) & _ & Hkt & _) & Hks & Hnd & Hkst & Hnin). done.
  - rewrite !Forall_cons. split.
    + intros ((Hk & Hks) & _). repeat split; try done; by repeat constructor.
    + intros (((Hk & _) & _) & Hks & _). done.
Qed.

Lemma accepted_app (dag : DagContext) (ks1 ks2 : list string) :
  accepted airflow dag (ks1 ++ ks2)
  <-> accepted airflow dag ks1 /\ accepted airflow (add_tasks ks1 dag) ks2.
Proof.
  revert dag. induction ks1 as [|k ks1 IH]; intros dag; cbn [app].
  - rewrite add_tasks_nil. pose proof (accepted_nil dag). tauto.
  - rewrite accepted_cons, IH, (accepted_cons dag k ks1).
    change (k :: ks1) with ([k] ++ ks1). rewrite add_tasks_app. tauto.
Qed.

(** The constructor on one task: it adds the task, or raises an error that
    is not an [IndexError] and leaves the DAG as it is. *)
Lemma BaseOperator_init_cases (k : string) (dag : DagContext) :
  (accepted airflow dag [k]
   /\ BaseOperator_init airflow k dag = (Ok tt, add_tasks [k] dag))
  \/ (~ accepted airflow dag [k]
      /\ exists name : string,
           BaseOperator_init airflow k dag = (Raise (OtherError name), dag)).
Proof.
  unfold BaseOperator_init, accepted.
  destruct (validate_key airflow k) as [e|] eqn:Hv.
  - right. split.
    + intros [Hf _]. apply Forall_cons in Hf as [Hf _]. congruence.
    + apply validate_key_error in Hv as ->. by eexists.
  - destruct dag as [tasks|].
    + case_bool_decide as Hin.
      * right. split; [|by eexists].
        intros (_ & _ & Hf). apply Forall_cons in Hf as [Hf _]. done.
      * left. split; [|done]. split; [by repeat constructor|].
        split; [apply NoDup_singleton|by repeat constructor].
    + left. split; [|done]. split; [by repeat constructor|done].
Qed.

Lemma prepare_step_nil (acc : list TriggerDagRunOperator * list string) (dag : DagContext) :
  prepare_step airflow T acc [] dag = (Raise (IndexError "list index out of range"), dag).
Proof. by destruct acc. Qed.

Lemma prepare_step_cons (tl : list TriggerDagRunOperator) (ids : list string)
    (k v : string) (d : PyDict) (dag : DagContext) :
  prepare_step airflow T (tl, ids) ((k, v) :: d) dag
  = match BaseOperator_init airflow k dag with
    | (Ok _, dag') =>
        (Ok (tl ++ [trigger_task_of T {| spec_task_id := k; spec_target_id := v |}],
             ids ++ [run_id_of T {| spec_task_id := k; spec_target_id := v |}]),
         dag')
    | (Raise e, dag') => (Raise e, dag')
    end.
Proof.
  unfold prepare_step, TriggerDagRunOperator_init, build_result, trigger_task_of, run_id_of.
  unfold mbind, mret, Build_bind, Build_ret. cbn [keys map fst index0 task_id].
  rewrite dict_get_first. cbn [py_str spec_task_id spec_target_id].
  destruct (BaseOperator_init airflow k dag) as [[[]|e] dag']; [|done].
  by rewrite !string_app_assoc.
Qed.

(** The loop of the builder from any accumulator, in terms of the loop from
    the empty one. *)
Lemma prepare_loop_acc (task_info : list PyDict) :
  forall (tl : list TriggerDagRunOperator) (ids : list string) (dag : DagContext),
    for_build (prepare_step airflow T) (tl, ids) task_info dag
    = match for_build (prepare_step airflow T) ([], []) task_info dag with
      | (Ok (tasks, ids'), dag') => (Ok (tl ++ tasks, ids ++ ids'), dag')
      | (Raise e, dag') => (Raise e, dag')
      end.
Proof.
  induction task_info as [|d task_info IH]; intros tl ids dag.
  - cbn. by rewrite !app_nil_r.
  - cbn [for_build]. unfold mbind, Build_bind. destruct d as [|[k v] d].
    + by rewrite !prepare_step_nil.
    + rewrite !prepare_step_cons.
      destruct (BaseOperator_init airflow k dag) as [[[]|e] dag1]; [|done].
      rewrite IH, (IH ([] ++ _) ([] ++ _)).
      destruct (for_build _ _ task_info dag1) as [[[tasks ids']|e] dag']; [|done].
      by rewrite <- !app_assoc.
Qed.

(** The loop on a list of mappings that all have a first item and whose
    tasks the constructor accepts. *)
Lemma prepare_loop_accepted (task_info : list PyDict) :
  forall (specs : list TriggerSpec) (dag : DagContext),
    mapM first_spec task_info = Some specs ->
    accepted airflow dag (map spec_task_id specs) ->
    prepare_dag_dependency airflow task_info T dag
    = (Ok (map (trigger_task_of T) specs, map (run_id_of T) specs),
       add_tasks (map spec_task_id specs) dag).
Proof.
  unfold prepare_dag_dependency.
  induction task_info as [|d task_info IH]; intros specs dag Hs Hacc.
  - injection Hs as <-. cbn. by rewrite add_tasks_nil.
  - cbn [mapM] in Hs. destruct (first_spec d) as [s|] eqn:Hd; [|done].
    destruct (mapM first_spec task_info) as [specs'|] eqn:Hs'; [|done].
    injection Hs as <-. apply first_spec_Some in Hd as [rest ->].
    cbn [map] in Hacc. apply accepted_cons in Hacc as [Hk Hacc].
    cbn [for_build]. unfold mbind, Build_bind. rewrite prepare_step_cons.
    destruct (BaseOperator_init_cases (spec_task_id s) dag) as [[_ ->]|[Hno _]]; [|done].
    rewrite prepare_loop_acc, (IH specs' _ eq_refl Hacc).
    cbn [map app]. change (spec_task_id s :: map spec_task_id specs')
      with ([spec_task_id s] ++ map spec_task_id specs').
    rewrite add_tasks_app. by destruct s.
Qed.

(** The loop returns only on such a list. *)
Lemma prepare_loop_Ok (task_info : list PyDict) :
  forall (dag dag' : DagContext) (out : list TriggerDagRunOperator * list string),
    prepare_dag_dependency airflow task_info T dag = (Ok out, dag') ->
    exists specs : list TriggerSpec,
      mapM first_spec task_info = Some specs
      /\ accepted airflow dag (map spec_task_id specs).
Proof.
  unfold prepare_dag_dependency.
  induction task_info as [|d task_info IH]; intros dag dag' out.
  - intros _. exists []. split; [done|apply accepted_nil].
  - cbn [for_build]. unfold mbind, Build_bind. destruct d as [|[k v] d].
    + by rewrite prepare_step_nil.
    + rewrite prepare_step_cons.
      destruct (BaseOperator_init_cases k dag) as [[Hk ->]|[_ [name ->]]]; [|done].
      rewrite prepare_loop_acc.
      destruct (for_build _ _ task_info _) as [[[tasks ids]|e] dag1] eqn:Hloop; [|done].
      intros _. destruct (IH _ _ _ Hloop) as (specs & Hs & Hacc).
      exists ({| spec_task_id := k; spec_target_id := v |} :: specs).
      cbn [mapM first_spec head fmap option_fmap option_map mbind option_bind].
      rewrite Hs. split; [done|]. cbn [map spec_task_id]. by apply accepted_cons.
Qed.

(** The loop over two lists, one after the other. *)
Lemma prepare_loop_app_acc (l1 l2 : list PyDict) :
  forall (tl : list TriggerDagRunOperator) (ids : list string) (dag : DagContext),
    for_build (prepare_step airflow T) (tl, ids) (l1 ++ l2) dag
    = match for_build (prepare_step airflow T) (tl, ids) l1 dag with
      | (Raise e, dag1) => (Raise e, dag1)
      | (Ok (tasks1, ids1), dag1) =>
          match for_build (prepare_step airflow T) ([], []) l2 dag1 with
          | (Raise e, dag2) => (Raise e, dag2)
          | (Ok (tasks2, ids2), dag2) => (Ok (tasks1 ++ tasks2, ids1 ++ ids2), dag2)
          end
      end.
Proof.
  induction l1 as [|d l1 IH]; intros tl ids dag.
  - cbn [app for_build]. unfold mret, Build_ret. rewrite prepare_loop_acc.
    by destruct (for_build _ _ l2 dag) as [[[tasks2 ids2]|e] dag2].
  - cbn [app for_build]. unfold mbind, Build_bind.
    destruct (prepare_step airflow T (tl, ids) d dag) as [[[tl' ids']|e] dag1]; [|done].
    apply IH.
Qed.

Lemma prepare_loop_app (l1 l2 : list PyDict) (dag : DagContext) :
  prepare_dag_dependency airflow (l1 ++ l2) T dag
  = match prepare_dag_dependency airflow l1 T dag with
    | (Raise e, dag1) => (Raise e, dag1)
    | (Ok (tasks1, ids1), dag1) =>
        match prepare_dag_dependency airflow l2 T dag1 with
        | (Raise e, dag2) => (Raise e, dag2)
        | (Ok (tasks2, ids2), dag2) => (Ok (tasks1 ++ tasks2, ids1 ++ ids2), dag2)
        end
    end.
Proof. apply prepare_loop_app_acc. Qed.



End builder.







(** ** The module-level script *)

(** C3, as the code has it: the run identifiers handed to the aggregator are
    the concatenation, in group order, of the run identifiers of every call
    of the builder; the builder is called once per group of triggered
    workflows, and the example master DAG has 9 groups. *)
Theorem example_master_dag_run_ids (airflow : Airflow) :
  exists (m : MasterDag) (calls : list BuilderCall)
         (outs : list (list TriggerDagRunOperator * list string)),
    example_master_dag airflow [] = (Ok m, calls)
    /\ map (fun c => (call_task_info c, call_execution_time c)) calls
       = map (fun g => (g, "{{ ds }}")) task_info_groups
    /\ Forall2 (fun c out =>
                  fst (prepare_dag_dependency airflow (call_task_info c)
                         (call_execution_time c) (call_dag c)) = Ok out)
               calls outs
    /\ Forall2 (fun g out => fst (prepare_dag_dependency airflow g "{{ ds }}" None) = Ok out)
               task_info_groups outs
    /\ report_op_kwargs_dag_run_ids m = concat (map snd outs)
    /\ trigger_task_groups m = map fst outs
    /\ NoDup task_info_groups
    /\ length task_info_groups = 9%nat.
Proof.
  pose (specs := map (fun g => default [] (mapM first_spec g)) task_info_groups).
  pose (outs := map (fun ss => (map (trigger_task_of "{{ ds }}") ss, map (run_id_of "{{ ds }}") ss))
                    specs).
  destruct (example_master_dag airflow []) as [[m|e] calls] eqn:Hrun;
    vm_compute in Hrun; [|discriminate].
  injection Hrun as <- <-.
  eexists _, _, outs. split; [reflexivity|].
  split; [reflexivity|].
  split; [|split; [|split; [reflexivity|split; [reflexivity|split; [|reflexivity]]]]].
  - unfold outs, specs, task_info_groups. cbn [map].
    repeat (constructor; [vm_compute; reflexivity|]). constructor.
  - unfold outs, specs, task_info_groups. cbn [map].
    repeat (constructor; [vm_compute; reflexivity|]). constructor.
  - apply (bool_decide_unpack _). vm_compute. exact I.
Qed.

(** C3, as stated, fails on the count: the script calls the builder for nine
    groups, not eight. *)
Lemma example_master_dag_not_eight_groups :
  length (snd (example_master_dag sample_airflow [])) <> 8%nat
  /\ length (snd (example_master_dag sample_airflow [])) = length task_info_groups.
Proof. split; [vm_compute; discriminate|vm_compute; reflexivity]. Qed.

(** ** The run-report aggregator: the loops *)

(** Runs the monadic operations of a goal. *)
Ltac py_run :=
  unfold emit, raise, lift_result, try_except, mbind, mret, Py_bind, Py_ret; cbn beta iota.

Lemma task_step_failing_line (failed_tasks : list string) (ti : TaskInstance.t) :
  task_step failed_tasks ti = failed_tasks ++ option_list (failing_line ti).
Proof.
  unfold task_step, failing_line, classify, excluded.
  destruct (bool_decide _ || bool_decide _); cbn [negb]; [by rewrite app_nil_r|].
  repeat (destruct (py_eq _ _); [try done; by rewrite app_nil_r|]). done.
Qed.

Lemma fold_task_step (tis : list TaskInstance.t) :
  forall failed_tasks : list string,
    fold_left task_step tis failed_tasks = failed_tasks ++ omap failing_line tis.
Proof.
  induction tis as [|ti tis IH]; intros failed_tasks; cbn [fold_left].
  - by rewrite app_nil_r.
  - rewrite IH, task_step_failing_line, <- app_assoc. f_equal.
    cbn [omap list_omap]. by destruct (failing_line ti).
Qed.

Lemma failing_line_None (ti : TaskInstance.t) :
  failing_line ti = None <-> non_success_child ti = false.
Proof.
  unfold failing_line, non_success_child, classify.
  destruct (excluded ti); [done|]. cbn [negb andb].
  destruct (py_eq _ "success"); [done|].
  by repeat destruct (py_eq _ _).
Qed.

Lemma failing_lines_nil (dr : DagRun.t) : failing_lines dr = [] <-> has_failing dr = false.
Proof.
  unfold failing_lines, has_failing.
  induction (DagRun.task_instances dr) as [|ti tis IH]; [done|].
  cbn [omap list_omap existsb]. rewrite orb_false_iff, <- IH, <- failing_line_None.
  destruct (failing_line ti); intuition congruence.
Qed.

Lemma dag_run_step_run (dag_count failed_dag_count : Z) (message_list : list string)
    (dr : DagRun.t) (tr : list Event) :
  dag_run_step (dag_count, failed_dag_count, message_list) dr tr
  = (Ok (dag_count + 1,
         if has_failing dr then failed_dag_count + 1 else failed_dag_count,
         message_list ++ failure_block dr),
     tr ++ [GetTaskInstances dr]).
Proof.
  unfold dag_run_step, get_task_instances, failure_block. py_run.
  rewrite fold_task_step, app_nil_l.
  fold (failing_lines dr).
  destruct (has_failing dr) eqn:Hf.
  - destruct (failing_lines dr) as [|l ls] eqn:Hl.
    + apply failing_lines_nil in Hl. congruence.
    + by rewrite <- app_assoc.
  - apply failing_lines_nil in Hf. rewrite Hf. by rewrite app_nil_r.
Qed.

Lemma for_each_dag_run_step (runs : list DagRun.t) :
  forall (dag_count failed_dag_count : Z) (message_list : list string) (tr : list Event),
    for_each dag_run_step (dag_count, failed_dag_count, message_list) runs tr
    = (Ok (dag_count + dag_count_of runs,
           failed_dag_count + failed_dag_count_of runs,
           message_list ++ flat_map failure_block runs),
       tr ++ map GetTaskInstances runs).
Proof.
  unfold dag_count_of, failed_dag_count_of.
  induction runs as [|dr runs IH]; intros dag_count failed_dag_count message_list tr.
  - cbn. by rewrite !Z.add_0_r, !app_nil_r.
  - cbn [for_each]. py_run. rewrite dag_run_step_run, IH.
    rewrite filter_cons. cbn [flat_map map length].
    rewrite <- !app_assoc. cbn [app].
    replace (dag_count + 1 + Z.of_nat (length runs))
      with (dag_count + Z.of_nat (S (length runs))) by lia.
    destruct (has_failing dr); [rewrite decide_True by done|rewrite decide_False by done];
      [|done].
    cbn [length]. set (n := length (filter _ runs)).
    by replace (failed_dag_count + 1 + Z.of_nat n) with (failed_dag_count + Z.of_nat (S n)) by lia.
Qed.

(** ** The run-report aggregator: one run of [get_report] *)

(** What a call of [get_report] returns and appends to the trace, in terms
    of what it reads. *)
Lemma get_report_run (w : World) (dag_run_ids : list string) (context : Context)
    (tr : list Event) :
  get_report w dag_run_ids context tr
  = match os_environ w !! "AIRFLOW__WEBSERVER__BASE_URL" with
    | None => (Raise (KeyError "AIRFLOW__WEBSERVER__BASE_URL"), tr ++ reads dag_run_ids)
    | Some url =>
        let runs := loaded_runs w dag_run_ids in
        let text := report_text w context runs url in
        let sent :=
          tr ++ reads dag_run_ids ++ map GetTaskInstances runs
             ++ [GetTaskInstances (dag_run context); LoggingInfo text;
                 SlackExecute (slack_alert w text)] in
        match slack_execute w (slack_alert w text) with
        | None => (Ok tt, sent)
        | Some e => (Raise e, sent ++ [LoggingException "Error occur while sending slack alert."])
        end
    end.
Proof.
  unfold get_report, session_query_dag_runs, xcom_pull, os_environ_getitem,
    get_task_instances, slack_webhook_execute.
  py_run. fold (loaded_runs w dag_run_ids).
  destruct (os_environ w !! "AIRFLOW__WEBSERVER__BASE_URL") as [url|]; py_run.
  2: { by rewrite <- !app_assoc. }
  rewrite for_each_dag_run_step. cbn beta iota zeta. rewrite !Z.add_0_l, app_nil_l.
  match goal with
  | |- context [LoggingInfo (join ?l)] =>
      assert (join l = report_text w context (loaded_runs w dag_run_ids) url) as ->
  end.
  { unfold report_text, header_block, summary_lines, failure_details, own_failures,
      header_line, deployment_line, pulled.
    f_equal. cbn [map].
    destruct (filter _ (DagRun.task_instances (dag_run context)));
      destruct (0 <? failed_dag_count_of (loaded_runs w dag_run_ids));
      cbn [map]; rewrite <- ?app_assoc; reflexivity. }
  fold (slack_alert w (report_text w context (loaded_runs w dag_run_ids) url)).
  destruct (slack_execute w _); rewrite <- ?app_assoc; reflexivity.
Qed.

Lemma report_strings_app (tr1 tr2 : list Event) :
  report_strings (tr1 ++ tr2) = report_strings tr1 ++ report_strings tr2.
Proof. apply omap_app. Qed.

Lemma report_strings_task_instances (runs : list DagRun.t) :
  report_strings (map GetTaskInstances runs) = [].
Proof. by induction runs. Qed.

(** The texts of a call: none when the base URL is unset, else the report,
    once in the log and once in the Slack message. *)
Lemma get_report_report_strings (w : World) (dag_run_ids : list string) (context : Context)
    (tr : list Event) :
  report_strings (drop (length tr) (snd (get_report w dag_run_ids context tr)))
  = match os_environ w !! "AIRFLOW__WEBSERVER__BASE_URL" with
    | None => []
    | Some url =>
        [report_text w context (loaded_runs w dag_run_ids) url;
         report_text w context (loaded_runs w dag_run_ids) url]
    end.
Proof.
  rewrite get_report_run.
  destruct (os_environ w !! "AIRFLOW__WEBSERVER__BASE_URL") as [url|]; cbn zeta.
  - destruct (slack_execute w _); cbn [snd]; rewrite <- ?app_assoc, drop_app_length;
      rewrite !report_strings_app, report_strings_task_instances; reflexivity.
  - cbn [snd]. by rewrite drop_app_length.
Qed.

(** The text depends on the world and the context only through the two
    version variables, the four pulled facts and the tasks of the master
    run. *)
Lemma report_text_ext (w1 w2 : World) (c1 c2 : Context) (runs : list DagRun.t) (url : string) :
  os_environ w1 !! "ASTRONOMER_RUNTIME_VERSION" = os_environ w2 !! "ASTRONOMER_RUNTIME_VERSION" ->
  os_environ w1 !! "PYTHON_VERSION" = os_environ w2 !! "PYTHON_VERSION" ->
  ti_xcom c1 !! "get_airflow_version" = ti_xcom c2 !! "get_airflow_version" ->
  ti_xcom c1 !! "get_airflow_executor" = ti_xcom c2 !! "get_airflow_executor" ->
  ti_xcom c1 !! "get_astro_sdk_version" = ti_xcom c2 !! "get_astro_sdk_version" ->
  ti_xcom c1 !! "get_astro_cloud_provider" = ti_xcom c2 !! "get_astro_cloud_provider" ->
  DagRun.task_instances (dag_run c1) = DagRun.task_instances (dag_run c2) ->
  report_text w1 c1 runs url = report_text w2 c2 runs url.
Proof.
  intros He1 He2 Hx1 Hx2 Hx3 Hx4 Hti.
  unfold report_text, header_block, own_failures, os_getenv, pulled.
  by rewrite He1, He2, Hx1, Hx2, Hx3, Hx4, Hti.
Qed.

(** ** The run-report aggregator: classification of the child outcomes *)

Lemma py_eq_true (st : PyVal) (s : string) : py_eq st s = true <-> st = PyStr s.
Proof.
  destruct st as [|s']; cbn [py_eq]; [done|].
  rewrite bool_decide_eq_true. split; congruence.
Qed.

Lemma py_eq_false (st : PyVal) (s : string) : py_eq st s = false <-> st <> PyStr s.
Proof. rewrite <- py_eq_true. by destruct (py_eq st s). Qed.

Lemma excluded_false (ti : TaskInstance.t) :
  excluded ti = false
  <-> TaskInstance.task_id ti <> "end" /\ TaskInstance.task_id ti <> "get_report".
Proof. unfold excluded. by rewrite orb_false_iff, !bool_decide_eq_false. Qed.

Lemma non_success_child_true (ti : TaskInstance.t) :
  non_success_child ti = true
  <-> TaskInstance.task_id ti <> "end" /\ TaskInstance.task_id ti <> "get_report"
      /\ TaskInstance.state ti <> PyStr "success".
Proof.
  unfold non_success_child.
  rewrite andb_true_iff, !negb_true_iff, excluded_false, py_eq_false. tauto.
Qed.

Lemma has_failing_true (dr : DagRun.t) :
  has_failing dr = true
  <-> exists ti : TaskInstance.t,
        ti ∈ DagRun.task_instances dr
        /\ TaskInstance.task_id ti <> "end" /\ TaskInstance.task_id ti <> "get_report"
        /\ TaskInstance.state ti <> PyStr "success".
Proof.
  unfold has_failing. rewrite existsb_exists.
  split; intros (ti & Hin & Hti); exists ti.
  - by rewrite list_elem_of_In, <- non_success_child_true.
  - by rewrite <- list_elem_of_In, non_success_child_true.
Qed.







(** ** The run-report aggregator: the report and its failures *)

(** The query loads the same records for two lists of identifiers that
    contain the same identifiers of the table. *)
Lemma loaded_runs_ext (w : World) (ids1 ids2 : list string) :
  (forall dr : DagRun.t,
     dr ∈ dag_run_table w -> DagRun.run_id dr ∈ ids1 <-> DagRun.run_id dr ∈ ids2) ->
  loaded_runs w ids1 = loaded_runs w ids2.
Proof.
  unfold loaded_runs. induction (dag_run_table w) as [|dr table IH]; intros Hsame; [done|].
  rewrite !filter_cons, IH by (intros dr' Hdr'; apply Hsame; by right).
  destruct (decide (DagRun.run_id dr ∈ ids1)) as [Hin|Hin];
    destruct (decide (DagRun.run_id dr ∈ ids2)) as [Hin'|Hin']; try done;
    exfalso; apply Hsame in Hin || apply Hsame in Hin'; try done; by left.
Qed.

(** C4, as the code has it: when the report is built, it starts with a
    header block of one line [*Name:* `value`] per fact, in the fixed order
    Runtime version, Python version, Airflow version, Executor, Astro-SDK
    version, Cloud provider.  The two facts read from the environment are
    rendered as [N/A] when their variable is unset; the four facts pulled
    from upstream tasks are rendered as pulled, and [None] when nothing was
    pushed. *)
Theorem get_report_header_block (w : World) (dag_run_ids : list string) (context : Context)
    (tr : list Event) (url : string) :
  os_environ w !! "AIRFLOW__WEBSERVER__BASE_URL" = Some url ->
  let env_fact key :=
    match os_environ w !! key with Some v => v | None => "N/A" end in
  let xcom_fact task_ids :=
    match ti_xcom context !! task_ids with Some v => v | None => "None" end in
  exists text body : string,
    report_strings (drop (length tr) (snd (get_report w dag_run_ids context tr))) = [text; text]
    /\ text
       = join [
           "Results generated for:" +:+ LF +:+ LF;
           "*" +:+ "Runtime version" +:+ ":* `" +:+ env_fact "ASTRONOMER_RUNTIME_VERSION"
             +:+ "`" +:+ LF;
           "*" +:+ "Python version" +:+ ":* `" +:+ env_fact "PYTHON_VERSION" +:+ "`" +:+ LF;
           "*" +:+ "Airflow version" +:+ ":* `" +:+ xcom_fact "get_airflow_version"
             +:+ "`" +:+ LF;
           "*" +:+ "Executor" +:+ ":* `" +:+ xcom_fact "get_airflow_executor" +:+ "`" +:+ LF;
           "*" +:+ "Astro-SDK version" +:+ ":* `" +:+ xcom_fact "get_astro_sdk_version"
             +:+ "`" +:+ LF;
           "*" +:+ "Cloud provider" +:+ ":* `" +:+ xcom_fact "get_astro_cloud_provider"
             +:+ "`" +:+ LF;
           LF ] +:+ body.
Proof.
  intros Hurl env_fact xcom_fact.
  rewrite get_report_report_strings, Hurl.
  eexists _, _. split; [reflexivity|].
  unfold report_text. rewrite join_app. f_equal.
  unfold header_block, header_line, os_getenv, pulled, env_fact, xcom_fact.
  repeat f_equal;
    match goal with |- context [?m !! ?k] => by destruct (m !! k) end.
Qed.

(** In the sample context two facts were not pushed: the header shows the
    pushed ones, and [None] for the others. *)
Lemma get_report_header_block_sample :
  exists body : string,
    report_strings (snd (get_report sample_world ["r1"] sample_context []))
    = [ ("Results generated for:" +:+ LF +:+ LF
         +:+ "*Runtime version:* `N/A`" +:+ LF
         +:+ "*Python version:* `N/A`" +:+ LF
         +:+ "*Airflow version:* `2.5.0`" +:+ LF
         +:+ "*Executor:* `CeleryExecutor`" +:+ LF
         +:+ "*Astro-SDK version:* `None`" +:+ LF
         +:+ "*Cloud provider:* `None`" +:+ LF
         +:+ LF) +:+ body;
        ("Results generated for:" +:+ LF +:+ LF
         +:+ "*Runtime version:* `N/A`" +:+ LF
         +:+ "*Python version:* `N/A`" +:+ LF
         +:+ "*Airflow version:* `2.5.0`" +:+ LF
         +:+ "*Executor:* `CeleryExecutor`" +:+ LF
         +:+ "*Astro-SDK version:* `None`" +:+ LF
         +:+ "*Cloud provider:* `None`" +:+ LF
         +:+ LF) +:+ body ].
Proof.
  destruct (get_report_header_block sample_world ["r1"] sample_context []
              "http://localhost:8080" eq_refl) as (text & body & Hs & Ht).
  exists body. cbn [length] in Hs. rewrite drop_0 in Hs. rewrite Hs, Ht. reflexivity.
Defined.

(** C4, as stated, fails on the facts pulled from upstream tasks: a fact
    that no upstream task pushed is shown as [None], not as [N/A]. *)
Lemma get_report_unresolved_fact_not_NA :
  ti_xcom sample_context !! "get_astro_sdk_version" = None
  /\ exists text : string,
       report_strings (snd (get_report sample_world ["r1"] sample_context [])) = [text; text]
       /\ "*Astro-SDK version:* `None`" ∈ split_lines text
       /\ "*Astro-SDK version:* `N/A`" ∉ split_lines text.
Proof.
  split; [reflexivity|].
  eexists. split; [vm_compute; reflexivity|].
  split; apply (bool_decide_unpack _); vm_compute; exact I.
Qed.

(** C8: when [AIRFLOW__WEBSERVER__BASE_URL] is unset, [get_report] raises
    [KeyError] after the query and the four pulls: it has not asked any run
    for its task instances, logged the report or called Slack.  Every other
    variable that it reads falls back to a fixed default. *)
Theorem get_report_base_url_unset (w : World) (dag_run_ids : list string) (context : Context)
    (tr : list Event) :
  os_environ w !! "AIRFLOW__WEBSERVER__BASE_URL" = None ->
  get_report w dag_run_ids context tr
  = (Raise (KeyError "AIRFLOW__WEBSERVER__BASE_URL"),
     tr ++ [SessionQuery dag_run_ids;
            XComPull "get_airflow_version";
            XComPull "get_airflow_executor";
            XComPull "get_astro_sdk_version";
            XComPull "get_astro_cloud_provider"])
  /\ (os_environ w !! "ASTRONOMER_RUNTIME_VERSION" = None ->
      os_getenv w "ASTRONOMER_RUNTIME_VERSION" "N/A" = "N/A")
  /\ (os_environ w !! "PYTHON_VERSION" = None -> os_getenv w "PYTHON_VERSION" "N/A" = "N/A")
  /\ (os_environ w !! "SLACK_CHANNEL" = None -> SLACK_CHANNEL w = "#provider-alert")
  /\ (os_environ w !! "SLACK_WEBHOOK_CONN" = None -> SLACK_WEBHOOK_CONN w = "http_slack")
  /\ (os_environ w !! "SLACK_USERNAME" = None -> SLACK_USERNAME w = "airflow_app").
Proof.
  intros Hurl. rewrite get_report_run, Hurl. split; [reflexivity|].
  unfold SLACK_CHANNEL, SLACK_WEBHOOK_CONN, SLACK_USERNAME, os_getenv.
  repeat split; intros ->; reflexivity.
Qed.

(** With an empty environment the call stops at the base URL. *)
Lemma get_report_base_url_unset_sample :
  get_report sample_world_no_base_url ["r1"; "r2"] sample_context []
  = (Raise (KeyError "AIRFLOW__WEBSERVER__BASE_URL"),
     [SessionQuery ["r1"; "r2"];
      XComPull "get_airflow_version";
      XComPull "get_airflow_executor";
      XComPull "get_astro_sdk_version";
      XComPull "get_astro_cloud_provider"])
  /\ SLACK_CHANNEL sample_world_no_base_url = "#provider-alert".
Proof.
  destruct (get_report_base_url_unset sample_world_no_base_url ["r1"; "r2"] sample_context []
              eq_refl) as (Hrun & _ & _ & Hchannel & _).
  split; [exact Hrun|exact (Hchannel eq_refl)].
Defined.

(** C5, as the code has it: a failure of the Slack call is logged and then
    raised again, as the last two steps of the call; and, when
    [AIRFLOW__WEBSERVER__BASE_URL] is set, [get_report] raises if and only
    if the Slack call fails, whatever the loaded runs and their states are
    and whichever run identifiers have no record. *)
Theorem get_report_raises_on_dispatch_failure (w : World) (dag_run_ids : list string)
    (context : Context) (tr : list Event) (url : string) :
  os_environ w !! "AIRFLOW__WEBSERVER__BASE_URL" = Some url ->
  let alert := slack_alert w (report_text w context (loaded_runs w dag_run_ids) url) in
  (forall e : Exn,
     slack_execute w alert = Some e ->
     exists before : list Event,
       get_report w dag_run_ids context tr
       = (Raise e,
          before ++ [SlackExecute alert;
                     LoggingException "Error occur while sending slack alert."]))
  /\ (slack_execute w alert = None ->
      exists before : list Event,
        get_report w dag_run_ids context tr = (Ok tt, before ++ [SlackExecute alert]))
  /\ ((exists e : Exn, fst (get_report w dag_run_ids context tr) = Raise e)
      <-> exists e : Exn, slack_execute w alert = Some e).
Proof.
  intros Hurl alert. rewrite get_report_run, Hurl. cbn zeta. fold alert.
  set (text := report_text w context (loaded_runs w dag_run_ids) url).
  split; [|split].
  - intros e He. rewrite He.
    exists (tr ++ reads dag_run_ids ++ map GetTaskInstances (loaded_runs w dag_run_ids)
               ++ [GetTaskInstances (dag_run context); LoggingInfo text]).
    by rewrite <- !app_assoc.
  - intros Hnone. rewrite Hnone.
    exists (tr ++ reads dag_run_ids ++ map GetTaskInstances (loaded_runs w dag_run_ids)
               ++ [GetTaskInstances (dag_run context); LoggingInfo text]).
    by rewrite <- !app_assoc.
  - destruct (slack_execute w alert) as [e|]; cbn [fst].
    + split; intros _; by exists e.
    + split; intros [e He]; discriminate.
Qed.

(** With the Slack webhook down, the call logs the failure and raises it;
    the failed run [r2] and the missing run [r9] are no error. *)
Lemma get_report_raises_on_dispatch_failure_sample :
  fst (get_report sample_world_slack_down ["r1"; "r2"; "r9"] sample_context [])
  = Raise (OtherError "HTTP 503")
  /\ last (snd (get_report sample_world_slack_down ["r1"; "r2"; "r9"] sample_context []))
     = Some (LoggingException "Error occur while sending slack alert.").
Proof.
  destruct (get_report_raises_on_dispatch_failure sample_world_slack_down ["r1"; "r2"; "r9"]
              sample_context [] "http://localhost:8080" eq_refl) as (Hraise & _ & _).
  destruct (Hraise (OtherError "HTTP 503") eq_refl) as [before ->].
  split; [reflexivity|]. cbn [snd]. by rewrite last_app.
Defined.

(** C5, as stated, fails: with the base URL unset the call raises although
    the Slack call cannot fail. *)
Lemma get_report_raises_without_dispatch_failure :
  (forall op : SlackWebhookOperator.t, slack_execute sample_world_no_base_url op = None)
  /\ fst (get_report sample_world_no_base_url ["r1"; "r2"] sample_context [])
     = Raise (KeyError "AIRFLOW__WEBSERVER__BASE_URL").
Proof. split; [done|]. vm_compute. reflexivity. Qed.

(** C6: run identifiers without a record are left out without an error.
    When the base URL is set and Slack accepts the message, the call
    returns; the loop counts the loaded records, so that [dag_count] is
    their number and the report says so right after its header; and a list
    of run identifiers that differs only in identifiers without a record
    gives the same report. *)
Theorem get_report_skips_missing_runs (w : World) (dag_run_ids : list string)
    (context : Context) (tr : list Event) (url : string) :
  os_environ w !! "AIRFLOW__WEBSERVER__BASE_URL" = Some url ->
  (forall op : SlackWebhookOperator.t, slack_execute w op = None) ->
  let loaded := filter (fun dr => DagRun.run_id dr ∈ dag_run_ids) (dag_run_table w) in
  fst (get_report w dag_run_ids context tr) = Ok tt
  /\ (forall tr' : list Event,
        exists (failed_dag_count : Z) (message_list : list string),
          fst (for_each dag_run_step (0, 0, []) loaded tr')
          = Ok (Z.of_nat (length loaded), failed_dag_count, message_list))
  /\ (exists text body : string,
        report_strings (drop (length tr) (snd (get_report w dag_run_ids context tr)))
        = [text; text]
        /\ text
           = join (header_block w context)
             +:+ ("*Total DAGS*: " +:+ str_int (Z.of_nat (length loaded)) +:+ " " +:+ LF)
             +:+ body)
  /\ (forall dag_run_ids' : list string,
        (forall dr : DagRun.t,
           dr ∈ dag_run_table w ->
           DagRun.run_id dr ∈ dag_run_ids' <-> DagRun.run_id dr ∈ dag_run_ids) ->
        fst (get_report w dag_run_ids' context tr) = Ok tt
        /\ report_strings (drop (length tr) (snd (get_report w dag_run_ids' context tr)))
           = report_strings (drop (length tr) (snd (get_report w dag_run_ids context tr)))).
Proof.
  intros Hurl Hslack loaded. fold (loaded_runs w dag_run_ids) in loaded.
  split; [|split; [|split]].
  - rewrite get_report_run, Hurl. cbn zeta. by rewrite Hslack.
  - intros tr'. rewrite for_each_dag_run_step. by eexists _, _.
  - rewrite get_report_report_strings, Hurl. eexists _, _. split; [reflexivity|].
    unfold report_text. rewrite join_app. f_equal.
  - intros dag_run_ids' Hsame.
    assert (loaded_runs w dag_run_ids' = loaded_runs w dag_run_ids) as Hloaded.
    { apply loaded_runs_ext. intros dr Hdr. by apply Hsame. }
    split.
    + rewrite get_report_run, Hurl. cbn zeta. by rewrite Hslack.
    + by rewrite !get_report_report_strings, Hurl, Hloaded.
Qed.

(** With [r1] and [r2] requested and no record for [r2], the call returns
    and the report counts one run. *)
Lemma get_report_skips_missing_runs_sample :
  fst (get_report sample_world ["r1"; "r2"] sample_context []) = Ok tt
  /\ exists text body : string,
       report_strings (snd (get_report sample_world ["r1"; "r2"] sample_context []))
       = [text; text]
       /\ text = join (header_block sample_world sample_context)
                 +:+ ("*Total DAGS*: 1 " +:+ LF) +:+ body.
Proof.
  destruct (get_report_skips_missing_runs sample_world ["r1"; "r2"] sample_context []
              "http://localhost:8080" eq_refl (fun _ => eq_refl))
    as (Hok & _ & (text & body & Hs & Ht) & _).
  split; [exact Hok|]. exists text, body. split; [exact Hs|exact Ht].
Defined.

(** C7: the text of the report is a function of the loaded records, the
    pulled facts, the task outcomes of the master run and the three
    variables read from the environment: two calls that agree on these log,
    and hand to Slack, the same strings, whatever else differs (the trace so
    far, the requested identifiers, the answer of Slack, the rest of the
    environment). *)
Theorem get_report_deterministic (w1 w2 : World) (ids1 ids2 : list string) (c1 c2 : Context)
    (tr1 tr2 : list Event) :
  loaded_runs w1 ids1 = loaded_runs w2 ids2 ->
  (forall task_ids : string,
     task_ids ∈ ["get_airflow_version"; "get_airflow_executor"; "get_astro_sdk_version";
                 "get_astro_cloud_provider"] ->
     ti_xcom c1 !! task_ids = ti_xcom c2 !! task_ids) ->
  DagRun.task_instances (dag_run c1) = DagRun.task_instances (dag_run c2) ->
  (forall key : string,
     key ∈ ["ASTRONOMER_RUNTIME_VERSION"; "PYTHON_VERSION"; "AIRFLOW__WEBSERVER__BASE_URL"] ->
     os_environ w1 !! key = os_environ w2 !! key) ->
  report_strings (drop (length tr1) (snd (get_report w1 ids1 c1 tr1)))
  = report_strings (drop (length tr2) (snd (get_report w2 ids2 c2 tr2))).
Proof.
  intros Hruns Hxcom Htis Henv.
  rewrite !get_report_report_strings, Hruns.
  rewrite (Henv "AIRFLOW__WEBSERVER__BASE_URL") by set_solver.
  destruct (os_environ w2 !! "AIRFLOW__WEBSERVER__BASE_URL") as [url|]; [|done].
  by rewrite (report_text_ext w1 w2 c1 c2) by (done || apply Henv || apply Hxcom; set_solver).
Qed.

(** Two calls on the same records, facts and configuration, one with Slack
    up and one with Slack down, produce the same text. *)
Lemma get_report_deterministic_sample :
  report_strings (snd (get_report sample_world ["r1"] sample_context []))
  = report_strings
      (drop 1 (snd (get_report sample_world_slack_down ["r1"; "r9"] sample_context
                      [LoggingInfo "started"]))).
Proof.
  rewrite <- (drop_0 (snd (get_report sample_world ["r1"] sample_context []))).
  apply (get_report_deterministic sample_world sample_world_slack_down ["r1"] ["r1"; "r9"]
           sample_context sample_context [] [LoggingInfo "started"]).
  - reflexivity.
  - reflexivity.
  - reflexivity.
  - intros key Hkey. apply list_elem_of_In in Hkey. cbn in Hkey.
    destruct Hkey as [<-|[<-|[<-|[]]]]; reflexivity.
Defined.

(** The whole report for one successful run and one run with a failed and
    an upstream-failed child task. *)
Example get_report_sample_text :
  report_strings (snd (get_report sample_world_slack_down ["r1"; "r2"] sample_context []))
  = [ join [
        "Results generated for:"; LF; LF;
        "*Runtime version:* `N/A`"; LF;
        "*Python version:* `N/A`"; LF;
        "*Airflow version:* `2.5.0`"; LF;
        "*Executor:* `CeleryExecutor`"; LF;
        "*Astro-SDK version:* `None`"; LF;
        "*Cloud provider:* `None`"; LF;
        LF;
        "*Total DAGS*: 2 "; LF;
        "*Success DAGS*: 1 :green_apple: "; LF;
        "*Failed DAGS*: 1 :apple: "; LF; " "; LF;
        "*Failure Details:* "; LF;
        " *example_append : failed* "; LF;
        ":red_circle:  load : failed "; LF;
        ":large_orange_circle:  append : upstream_failed "; LF;
        LF;
        " <http://localhost:8080/dags/example_master_dag/grid?search=example_master_dag|Link>";
        " to the master DAG deployment of the above run "; LF ];
      join [
        "Results generated for:"; LF; LF;
        "*Runtime version:* `N/A`"; LF;
        "*Python version:* `N/A`"; LF;
        "*Airflow version:* `2.5.0`"; LF;
        "*Executor:* `CeleryExecutor`"; LF;
        "*Astro-SDK version:* `None`"; LF;
        "*Cloud provider:* `None`"; LF;
        LF;
        "*Total DAGS*: 2 "; LF;
        "*Success DAGS*: 1 :green_apple: "; LF;
        "*Failed DAGS*: 1 :apple: "; LF; " "; LF;
        "*Failure Details:* "; LF;
        " *example_append : failed* "; LF;
        ":red_circle:  load : failed "; LF;
        ":large_orange_circle:  append : upstream_failed "; LF;
        LF;
        " <http://localhost:8080/dags/example_master_dag/grid?search=example_master_dag|Link>";
        " to the master DAG deployment of the above run "; LF ] ].
Proof. vm_compute. reflexivity. Qed.

(** The builder on a mapping with a second key, and on an empty mapping,
    outside any DAG. *)
Example prepare_dag_dependency_second_key :
  prepare_dag_dependency sample_airflow [[("a", "b"); ("c", "d")]] "T" None
  = (Ok ([trigger_task_of "T" {| spec_task_id := "a"; spec_target_id := "b" |}], ["a_b_T"]),
     None).
Proof. reflexivity. Qed.

Example prepare_dag_dependency_empty_mapping :
  prepare_dag_dependency sample_airflow [[("a", "b")]; []] "T" None
  = (Raise (IndexError "list index out of range"), None).
Proof. reflexivity. Qed.

(** A key may end in one line feed, as [KEY_REGEX] allows; an empty key, a
    key with a space and a key of 251 characters are rejected. *)
Example validate_key_samples :
  validate_key sample_airflow ("load.file-1_" +:+ LF) = None
  /\ validate_key sample_airflow EmptyString = Some (OtherError "AirflowException")
  /\ validate_key sample_airflow "a b" = Some (OtherError "AirflowException")
  /\ validate_key sample_airflow (String.concat EmptyString (replicate 251 "a"))
     = Some (OtherError "AirflowException")
  /\ validate_key sample_airflow (String.concat EmptyString (replicate 250 "a")) = None.
Proof. repeat split; vm_compute; reflexivity. Qed.

(** ** The SFTP and FTP service tasks *)

(** Runs the monadic operations of a task. *)
Ltac task_run :=
  unfold effect, xcom_push, xcom_pull_key, task_raise, task_result, out_of_fuel,
    ec2_create_instances, ec2_describe_instances, ec2_terminate_instances,
    session_query_connection, session_delete_commit, session_add_commit,
    mbind, mret, Task_bind, Task_ret;
  cbn beta iota delta [xcom_table connection_table describe_calls effects].

Lemma slept_app (es1 es2 : list Effect) : slept (es1 ++ es2) = slept es1 + slept es2.
Proof.
  unfold slept. induction es1 as [|e es1 IH]; [done|].
  cbn [app foldr]. rewrite IH. destruct e; lia.
Qed.

Lemma terminated_app (es1 es2 : list Effect) :
  terminated (es1 ++ es2) = terminated es1 ++ terminated es2.
Proof. unfold terminated. by rewrite flat_map_app. Qed.

Lemma logged_app (es1 es2 : list Effect) : logged (es1 ++ es2) = logged es1 ++ logged es2.
Proof. apply omap_app. Qed.

(** One poll that finds the instance in a state other than running. *)
Lemma get_instances_status_waiting (w : World) (ec2 : Ec2) (ti : TaskInstance.t)
    (instance_id : string) (details : InstanceDetails) (d : Deployment) :
  reports ec2 (describe_calls d) instance_id details ->
  State_Name details <> "running" ->
  exists es : list Effect,
    get_instances_status w ec2 ti instance_id d
    = Some (Ok (State_Name details),
            {| xcom_table := xcom_table d;
               connection_table := connection_table d;
               describe_calls := S (describe_calls d);
               effects := effects d ++ es |})
    /\ slept es = 0 /\ terminated es = [] /\ logged es = [].
Proof.
  intros (instances & reservations & Hd) Hs.
  eexists. unfold get_instances_status. task_run. rewrite Hd. cbn [index0]. task_run.
  rewrite bool_decide_eq_false_2 by done. task_run.
  rewrite <- !app_assoc. split; [reflexivity|]. done.
Qed.

(** One poll that finds the instance running at a public address. *)
Lemma get_instances_status_running (w : World) (ec2 : Ec2) (ti : TaskInstance.t)
    (instance_id ip : string) (d : Deployment) :
  reports ec2 (describe_calls d) instance_id
          {| State_Name := "running"; PublicIpAddress := Some ip |} ->
  exists es : list Effect,
    get_instances_status w ec2 ti instance_id d
    = Some (Ok "running",
            {| xcom_table :=
                 <[(TaskInstance.task_id ti, INSTANCE_PUBLIC_IP) := ip]> (xcom_table d);
               connection_table := connection_table d;
               describe_calls := S (describe_calls d);
               effects := effects d ++ es |})
    /\ slept es = 0 /\ terminated es = [] /\ logged es = [].
Proof.
  intros (instances & reservations & Hd).
  eexists. unfold get_instances_status. task_run. rewrite Hd. cbn [index0]. task_run.
  cbn [State_Name PublicIpAddress getitem_PublicIpAddress]. task_run.
  rewrite <- !app_assoc. split; [reflexivity|]. done.
Qed.

(** Any poll: the result, and what it leaves of the state. *)
Lemma get_instances_status_cases (w : World) (ec2 : Ec2) (ti : TaskInstance.t)
    (instance_id : string) (d : Deployment) :
  exists (r : Result string) (d' : Deployment) (es : list Effect),
    get_instances_status w ec2 ti instance_id d = Some (r, d')
    /\ connection_table d' = connection_table d
    /\ describe_calls d' = S (describe_calls d)
    /\ effects d' = effects d ++ es
    /\ terminated es = []
    /\ match r with
       | Ok status =>
           exists details : InstanceDetails,
             reports ec2 (describe_calls d) instance_id details
             /\ State_Name details = status
             /\ (if bool_decide (status = "running")
                 then exists ip : string,
                        PublicIpAddress details = Some ip
                        /\ xcom_table d'
                           = <[(TaskInstance.task_id ti, INSTANCE_PUBLIC_IP) := ip]>
                               (xcom_table d)
                 else xcom_table d' = xcom_table d)
       | Raise e => xcom_table d' = xcom_table d
       end.
Proof.
  unfold get_instances_status, reports. task_run.
  destruct (describe_instances ec2 (describe_calls d) [instance_id])
    as [[|[|details instances] reservations]|e] eqn:Hd; cbn [index0]; task_run.
  4: { eexists _, _, _. split; [reflexivity|]. cbn. by rewrite <- !app_assoc. }
  1, 2: eexists _, _, _; split; [reflexivity|]; cbn; by rewrite <- !app_assoc.
  case_bool_decide as Hs; task_run.
  - unfold getitem_PublicIpAddress. destruct (PublicIpAddress details) as [ip|] eqn:Hip; task_run.
    + eexists _, _, _. split; [reflexivity|]. cbn. rewrite <- !app_assoc.
      repeat split; try done. exists details. rewrite Hs.
      split; [by eexists _, _|]. split; [done|]. cbn. by exists ip.
    + eexists _, _, _. split; [reflexivity|]. cbn. by rewrite <- !app_assoc.
  - eexists _, _, _. split; [reflexivity|]. cbn. rewrite <- !app_assoc.
    repeat split; try done. exists details.
    split; [by eexists _, _|]. split; [done|]. by rewrite bool_decide_eq_false_2.
Qed.

Section polling.
Variables (w : World) (ec2 : Ec2) (ti : TaskInstance.t) (instance_id : string).

Lemma running_after_S (n k : nat) (ip : string) :
  running_after ec2 n instance_id (S k) ip ->
  (exists details : InstanceDetails,
     reports ec2 n instance_id details /\ State_Name details <> "running")
  /\ running_after ec2 (S n) instance_id k ip.
Proof.
  intros [Hwait Hrun]. split.
  - destruct (Hwait 0%nat) as (details & Hd & Hs); [lia|].
    exists details. by rewrite Nat.add_0_r in Hd.
  - split.
    + intros i Hi. destruct (Hwait (S i)) as (details & Hd & Hs); [lia|].
      exists details. by rewrite Nat.add_succ_r in Hd.
    + by rewrite Nat.add_succ_r in Hrun.
Qed.

(** The loop returns once the instance is reported as running, after one
    sleep of 30 seconds per earlier report. *)
Lemma wait_until_running_returns (k : nat) (ip : string) :
  forall (fuel : nat) (d : Deployment),
    running_after ec2 (describe_calls d) instance_id k ip ->
    (k < fuel)%nat ->
    exists (d' : Deployment) (es : list Effect),
      wait_until_running w ec2 ti instance_id fuel d = Some (Ok tt, d')
      /\ xcom_table d'
         = <[(TaskInstance.task_id ti, INSTANCE_PUBLIC_IP) := ip]> (xcom_table d)
      /\ connection_table d' = connection_table d
      /\ describe_calls d' = (describe_calls d + k + 1)%nat
      /\ effects d' = effects d ++ es
      /\ slept es = 30 * Z.of_nat k
      /\ terminated es = [].
Proof.
  induction k as [|k IH]; intros fuel d Hrun Hfuel;
    (destruct fuel as [|fuel]; [lia|]); cbn [wait_until_running].
  - destruct Hrun as [_ Hrun]. rewrite Nat.add_0_r in Hrun.
    destruct (get_instances_status_running w ec2 ti instance_id ip d Hrun)
      as (es & Hst & Hsl & Hte & _).
    unfold mbind at 1, Task_bind. rewrite Hst.
    rewrite bool_decide_eq_false_2 by (intros H; by apply H).
    eexists _, es. split; [reflexivity|]. cbn. repeat split; try done. lia.
  - apply running_after_S in Hrun as [(details & Hd & Hs) Hrun].
    destruct (get_instances_status_waiting w ec2 ti instance_id details d Hd Hs)
      as (es & Hst & Hsl & Hte & _).
    unfold mbind at 1, Task_bind. rewrite Hst.
    rewrite bool_decide_eq_true_2 by done. task_run.
    match goal with |- context [wait_until_running _ _ _ _ fuel ?d1] =>
      destruct (IH fuel d1) as (d' & es' & Hw & Hx & Hc & Hn & He & Hsl' & Hte');
        [exact Hrun|lia|]
    end.
    exists d', (es ++ [LogInfo
      "Waiting for Instance to be available in running state. Sleeping for 30 seconds.";
      TimeSleep 30] ++ es').
    split; [exact Hw|]. cbn in Hx, Hc, Hn, He.
    split; [exact Hx|]. split; [exact Hc|]. split; [lia|].
    split; [by rewrite He, <- !app_assoc|].
    rewrite !slept_app, !terminated_app, Hsl, Hsl', Hte, Hte'. split; [|done].
    cbn. lia.
Qed.

(** The loop does not return while the instance is reported in another
    state. *)
Lemma wait_until_running_pending (k : nat) :
  forall (fuel : nat) (d : Deployment),
    (forall i : nat, (i < k)%nat ->
       exists details : InstanceDetails,
         reports ec2 (describe_calls d + i) instance_id details
         /\ State_Name details <> "running") ->
    (fuel <= k)%nat ->
    wait_until_running w ec2 ti instance_id fuel d = None.
Proof.
  induction k as [|k IH]; intros fuel d Hwait Hfuel;
    (destruct fuel as [|fuel]; [done|]); [lia|]. cbn [wait_until_running].
  destruct (Hwait 0%nat) as (details & Hd & Hs); [lia|]. rewrite Nat.add_0_r in Hd.
  destruct (get_instances_status_waiting w ec2 ti instance_id details d Hd Hs)
    as (es & Hst & _).
  unfold mbind at 1, Task_bind. rewrite Hst.
  rewrite bool_decide_eq_true_2 by done. task_run.
  apply IH; [|lia]. cbn. intros i Hi.
  destruct (Hwait (S i)) as (details' & Hd' & Hs'); [lia|].
  exists details'. by rewrite Nat.add_succ_r in Hd'.
Qed.

(** Whatever the loop ends with, it has written at most the public
    address to the XCom table, and has left the connection table alone and
    terminated nothing. *)
Lemma wait_until_running_frame (fuel : nat) :
  forall (d d' : Deployment) (r : Result unit),
    wait_until_running w ec2 ti instance_id fuel d = Some (r, d') ->
    (forall (t key : string),
       key <> INSTANCE_PUBLIC_IP -> xcom_table d' !! (t, key) = xcom_table d !! (t, key))
    /\ connection_table d' = connection_table d
    /\ exists es : list Effect, effects d' = effects d ++ es /\ terminated es = [].
Proof.
  induction fuel as [|fuel IH]; intros d d' r; cbn [wait_until_running]; [done|].
  destruct (get_instances_status_cases w ec2 ti instance_id d)
    as (r1 & d1 & es & Hst & Hc & _ & He & Hte & Hr).
  unfold mbind at 1, Task_bind. rewrite Hst.
  destruct r1 as [status|e].
  - destruct Hr as (details & _ & _ & Hx).
    assert (forall t key : string,
              key <> INSTANCE_PUBLIC_IP ->
              xcom_table d1 !! (t, key) = xcom_table d !! (t, key)) as Hx1.
    { intros t key Hkey. case_bool_decide.
      - destruct Hx as (ip & _ & ->). apply lookup_insert_ne. congruence.
      - by rewrite Hx. }
    destruct (bool_decide (status <> "running")).
    + task_run. intros Hw. apply IH in Hw as (Hx' & Hc' & es' & He' & Hte').
      cbn in Hx', Hc', He'. split; [|split].
      * intros t key Hkey. by rewrite Hx', Hx1.
      * congruence.
      * eexists. rewrite He', He, <- !app_assoc. split; [reflexivity|].
        by rewrite !terminated_app, Hte, Hte'.
    + task_run. intros [= <- <-]. split; [done|]. split; [done|]. by exists es.
  - intros [= <- <-]. split; [intros; by rewrite Hr|]. split; [done|]. by exists es.
Qed.

End polling.

(** After [create_instances] has returned an instance, the method has
    pushed its identifier and slept 120 seconds, and polls. *)
Lemma start_sftp_ftp_services_method_polls (w : World) (ec2 : Ec2) (ti : TaskInstance.t)
    (fuel : nat) (d : Deployment) (instance_id : string) (others : list string) :
  create_instances ec2 (create_args w) = Ok (instance_id :: others) ->
  start_sftp_ftp_services_method w ec2 ti fuel d
  = wait_until_running w ec2 ti instance_id fuel
      {| xcom_table :=
           <[(TaskInstance.task_id ti, EC2_INSTANCE_ID_KEY) := instance_id]> (xcom_table d);
         connection_table := connection_table d;
         describe_calls := describe_calls d;
         effects := effects d
           ++ [Boto3Resource "ec2" (AWS_S3_CREDS w);
               Ec2CreateInstances (create_args w);
               Print "instance : " (PrintedInstances (instance_id :: others));
               TimeSleep 120] |}.
Proof.
  intros Hc. unfold start_sftp_ftp_services_method. fold (create_args w). task_run.
  rewrite Hc. cbn [index0]. task_run. by rewrite <- !app_assoc.
Qed.

(** One turn of the loop over the two connections: the row is replaced,
    whether it was there or not. *)
Lemma connection_step_run (conn : Connection.t) (d : Deployment) :
  well_keyed (connection_table d) ->
  connection_step conn d
  = Some (Ok tt,
          {| xcom_table := xcom_table d;
             connection_table := <[Connection.conn_id conn := conn]> (connection_table d);
             describe_calls := describe_calls d;
             effects :=
               effects d
               ++ connection_step_effects conn (connection_table d !! Connection.conn_id conn) |}).
Proof.
  intros Hwk. unfold connection_step, connection_step_effects. task_run.
  destruct (connection_table d !! Connection.conn_id conn) as [found|] eqn:Hfound; task_run.
  - rewrite (Hwk _ _ Hfound), lookup_delete_eq, insert_delete_eq.
    cbn [xcom_table connection_table describe_calls effects]. by rewrite <- !app_assoc.
  - rewrite Hfound.
    cbn [xcom_table connection_table describe_calls effects]. by rewrite <- !app_assoc.
Qed.

Lemma well_keyed_insert (table : gmap string Connection.t) (conn : Connection.t) :
  well_keyed table -> well_keyed (<[Connection.conn_id conn := conn]> table).
Proof.
  intros Hwk k c. rewrite lookup_insert. case_decide as Hk.
  - by intros [= <-].
  - by apply Hwk.
Qed.

(** The connection task, once the public address is in the XCom table. *)
Lemma create_sftp_ftp_airflow_connection_run (w : World) (ti : TaskInstance.t)
    (d : Deployment) (ip : string) :
  well_keyed (connection_table d) ->
  xcom_table d !! ("start_sftp_ftp_services", INSTANCE_PUBLIC_IP) = Some ip ->
  create_sftp_ftp_airflow_connection w ti d
  = Some (Ok tt,
          {| xcom_table := xcom_table d;
             connection_table :=
               <["ftp_conn" := ftp_conn_of w ip]>
                 (<["sftp_conn" := sftp_conn_of w ip]> (connection_table d));
             describe_calls := describe_calls d;
             effects :=
               effects d
               ++ connection_step_effects (sftp_conn_of w ip) (connection_table d !! "sftp_conn")
               ++ connection_step_effects (ftp_conn_of w ip) (connection_table d !! "ftp_conn") |}).
Proof.
  intros Hwk Hip. unfold create_sftp_ftp_airflow_connection. task_run.
  cbn [omap list_omap]. rewrite Hip. cbn [xcom_index0]. task_run.
  cbn [for_task]. fold (sftp_conn_of w ip) (ftp_conn_of w ip).
  unfold mbind at 1, Task_bind. rewrite connection_step_run by done.
  unfold mbind at 1, Task_bind.
  rewrite connection_step_run by (by apply (well_keyed_insert _ (sftp_conn_of w ip))).
  task_run. cbn [Connection.conn_id sftp_conn_of ftp_conn_of].
  rewrite lookup_insert_ne by done. by rewrite <- !app_assoc.
Qed.

Lemma create_sftp_ftp_airflow_connection_missing (w : World) (ti : TaskInstance.t)
    (d : Deployment) :
  xcom_table d !! ("start_sftp_ftp_services", INSTANCE_PUBLIC_IP) = None ->
  create_sftp_ftp_airflow_connection w ti d = Some (Raise (IndexError "0"), d).
Proof.
  intros Hip. unfold create_sftp_ftp_airflow_connection. task_run.
  cbn [omap list_omap]. by rewrite Hip.
Qed.

Lemma terminate_instance_run (w : World) (ec2 : Ec2) (ti : TaskInstance.t) (d : Deployment) :
  terminate_instance w ec2 ti d
  = match xcom_table d !! ("start_sftp_ftp_services", EC2_INSTANCE_ID_KEY) with
    | None =>
        Some (Raise (IndexError "0"),
              {| xcom_table := xcom_table d;
                 connection_table := connection_table d;
                 describe_calls := describe_calls d;
                 effects := effects d ++ [Boto3Client "ec2" (AWS_S3_CREDS w)] |})
    | Some instance_id =>
        Some (match terminate_instances ec2 [instance_id] with
              | None => Ok tt
              | Some e => Raise e
              end,
              {| xcom_table := xcom_table d;
                 connection_table := connection_table d;
                 describe_calls := describe_calls d;
                 effects := effects d ++ [Boto3Client "ec2" (AWS_S3_CREDS w);
                                          Ec2TerminateInstances [instance_id]] |})
    end.
Proof.
  unfold terminate_instance. task_run. cbn [omap list_omap].
  destruct (xcom_table d !! ("start_sftp_ftp_services", EC2_INSTANCE_ID_KEY))
    as [instance_id|]; cbn [xcom_index0]; task_run; [|done].
  destruct (terminate_instances ec2 [instance_id]); task_run; by rewrite <- !app_assoc.
Qed.

(** X1: a poll of the instance status changes the XCom table only when it
    returns [running], and then it has stored, under [instance_public_ip]
    for the running task, the public address that EC2 reported; whatever it
    returns is the state of the first instance of the first reservation. *)
Theorem get_instances_status_pushes_address (w : World) (ec2 : Ec2) (ti : TaskInstance.t)
    (instance_id : string) (d : Deployment) :
  exists (r : Result string) (d' : Deployment),
    get_instances_status w ec2 ti instance_id d = Some (r, d')
    /\ describe_calls d' = S (describe_calls d)
    /\ (xcom_table d' <> xcom_table d -> r = Ok "running")
    /\ (forall status : string,
          r = Ok status ->
          exists details : InstanceDetails,
            reports ec2 (describe_calls d) instance_id details
            /\ State_Name details = status
            /\ (status = "running" ->
                exists ip : string,
                  PublicIpAddress details = Some ip
                  /\ xcom_table d' !! (TaskInstance.task_id ti, "instance_public_ip") = Some ip)).
Proof.
  destruct (get_instances_status_cases w ec2 ti instance_id d)
    as (r & d' & es & Hst & _ & Hn & _ & _ & Hr).
  exists r, d'. split; [done|]. split; [done|]. split.
  - intros Hx. destruct r as [status|e]; [|done].
    destruct Hr as (details & _ & _ & Hxs). case_bool_decide; [by subst|done].
  - intros status ->. destruct Hr as (details & Hd & Hs & Hx).
    exists details. split; [done|]. split; [done|].
    intros ->. rewrite bool_decide_eq_true_2 in Hx by done.
    destruct Hx as (ip & Hip & ->). exists ip. split; [done|]. apply lookup_insert_eq.
Qed.

(** X2: a poll fails with [IndexError] when EC2 answers with no
    reservation or with a reservation without instance, with [KeyError]
    when the running instance has no public address, and with the error of
    EC2 when the call itself fails; in each case nothing is pushed. *)
Theorem get_instances_status_errors (w : World) (ec2 : Ec2) (ti : TaskInstance.t)
    (instance_id : string) (d : Deployment) :
  match describe_instances ec2 (describe_calls d) [instance_id] with
  | Raise e =>
      exists d', get_instances_status w ec2 ti instance_id d = Some (Raise e, d')
                 /\ xcom_table d' = xcom_table d
  | Ok [] | Ok ([] :: _) =>
      exists d', get_instances_status w ec2 ti instance_id d
                 = Some (Raise (IndexError "list index out of range"), d')
                 /\ xcom_table d' = xcom_table d
  | Ok ((details :: _) :: _) =>
      State_Name details = "running" -> PublicIpAddress details = None ->
      exists d', get_instances_status w ec2 ti instance_id d
                 = Some (Raise (KeyError "PublicIpAddress"), d')
                 /\ xcom_table d' = xcom_table d
  end.
Proof.
  unfold get_instances_status. task_run.
  destruct (describe_instances ec2 (describe_calls d) [instance_id])
    as [[|[|details instances] reservations]|e]; cbn [index0]; task_run;
    try (eexists; split; [reflexivity|done]).
  intros Hs Hip. rewrite bool_decide_eq_true_2 by done. task_run.
  unfold getitem_PublicIpAddress. rewrite Hip. task_run.
  eexists; split; [reflexivity|done].
Qed.

(** X3: when EC2 creates an instance and reports it as running, with a
    public address, at the poll after [k] reports of another state, the
    start task returns (given fuel for more than [k] polls) after [k + 1]
    polls and 120 + 30 k seconds of sleep, with the identifier of the
    instance and its address in the XCom table under the task's own name;
    it does not return with fuel for [k] polls or fewer. *)
Theorem start_sftp_ftp_services_waits (w : World) (ec2 : Ec2) (ti : TaskInstance.t)
    (d : Deployment) (instance_id : string) (others : list string) (k : nat) (ip : string)
    (fuel : nat) :
  create_instances ec2 (create_args w) = Ok (instance_id :: others) ->
  running_after ec2 (describe_calls d) instance_id k ip ->
  if decide (k < fuel)%nat then
    exists (d' : Deployment) (es : list Effect),
      start_sftp_ftp_services_method w ec2 ti fuel d = Some (Ok tt, d')
      /\ xcom_table d'
         = <[(TaskInstance.task_id ti, "instance_public_ip") := ip]>
             (<[(TaskInstance.task_id ti, "ec2_instance_id") := instance_id]> (xcom_table d))
      /\ connection_table d' = connection_table d
      /\ describe_calls d' = (describe_calls d + k + 1)%nat
      /\ effects d' = effects d ++ es
      /\ slept es = 120 + 30 * Z.of_nat k
  else start_sftp_ftp_services_method w ec2 ti fuel d = None.
Proof.
  intros Hc Hrun. rewrite (start_sftp_ftp_services_method_polls _ _ _ _ _ _ _ Hc).
  case_decide as Hfuel.
  - match goal with |- context [wait_until_running _ _ _ _ fuel ?d0] =>
      destruct (wait_until_running_returns w ec2 ti instance_id k ip fuel d0 Hrun Hfuel)
        as (d' & es & Hw & Hx & Hct & Hn & He & Hsl & _)
    end.
    exists d'. eexists. split; [exact Hw|]. cbn in Hx, Hct, Hn, He.
    split; [exact Hx|]. split; [exact Hct|]. split; [exact Hn|].
    split; [by rewrite He, <- app_assoc|].
    rewrite slept_app, Hsl. cbn. lia.
  - apply (wait_until_running_pending w ec2 ti instance_id k); [|lia].
    intros i Hi. by apply Hrun.
Qed.

(** Two pending reports, then running: 180 seconds of sleep. *)
Lemma start_sftp_ftp_services_waits_sample :
  exists (d' : Deployment) (es : list Effect),
    start_sftp_ftp_services sample_world sample_ec2 3 sample_deployment = Some (Ok tt, d')
    /\ xcom_table d' !! ("start_sftp_ftp_services", "instance_public_ip") = Some "203.0.113.7"
    /\ effects d' = effects sample_deployment ++ es
    /\ slept es = 180.
Proof.
  assert (running_after sample_ec2 (describe_calls sample_deployment) "i-0abc" 2 "203.0.113.7")
    as Hrun.
  { split.
    - intros i Hi. exists {| State_Name := "pending"; PublicIpAddress := None |}.
      split; [|done]. exists [], []. cbn.
      destruct i as [|[|i]]; [reflexivity|reflexivity|lia].
    - by exists [], []. }
  pose proof (start_sftp_ftp_services_waits sample_world sample_ec2
                {| TaskInstance.task_id := "start_sftp_ftp_services";
                   TaskInstance.state := PyStr "running" |}
                sample_deployment "i-0abc" [] 2 "203.0.113.7" 3 eq_refl Hrun) as Hstart.
  rewrite decide_True in Hstart by lia.
  destruct Hstart as (d' & es & Hs & Hx & _ & _ & He & Hsl).
  exists d', es. split; [exact Hs|]. split; [|split; [exact He|exact Hsl]].
  rewrite Hx. apply lookup_insert_eq.
Defined.

(** X4: the start task has no timeout: when EC2 creates an instance and
    reports it, at every poll, in a state other than running, the task does
    not return, whatever the fuel. *)
Theorem start_sftp_ftp_services_no_timeout (w : World) (ec2 : Ec2) (ti : TaskInstance.t)
    (d : Deployment) (instance_id : string) (others : list string) (fuel : nat) :
  create_instances ec2 (create_args w) = Ok (instance_id :: others) ->
  (forall n : nat,
     exists details : InstanceDetails,
       reports ec2 n instance_id details /\ State_Name details <> "running") ->
  start_sftp_ftp_services_method w ec2 ti fuel d = None.
Proof.
  intros Hc Hnever. rewrite (start_sftp_ftp_services_method_polls _ _ _ _ _ _ _ Hc).
  apply (wait_until_running_pending w ec2 ti instance_id fuel); [|lia].
  intros i _. apply Hnever.
Qed.

Lemma start_sftp_ftp_services_no_timeout_sample :
  start_sftp_ftp_services sample_world sample_ec2_never_running 1000 sample_deployment = None.
Proof.
  apply (start_sftp_ftp_services_no_timeout sample_world sample_ec2_never_running _
           sample_deployment "i-0abc" []); [reflexivity|].
  intros n. exists {| State_Name := "pending"; PublicIpAddress := None |}.
  split; [by exists [], []|done].
Defined.

(** X5: the termination task, run after the start task, asks EC2 to
    terminate exactly the instance that the start task created, whether the
    start task returned or failed while polling; the connection table is
    left as it was. *)
Theorem terminate_instance_after_start (w : World) (ec2 : Ec2) (fuel : nat)
    (d d' : Deployment) (r : Result unit) (instance_id : string) (others : list string) :
  create_instances ec2 (create_args w) = Ok (instance_id :: others) ->
  start_sftp_ftp_services w ec2 fuel d = Some (r, d') ->
  exists d'' : Deployment,
    terminate_ec2_instance w ec2 d'
    = Some (match terminate_instances ec2 [instance_id] with
            | None => Ok tt
            | Some e => Raise e
            end, d'')
    /\ terminated (effects d'') = terminated (effects d) ++ [instance_id]
    /\ connection_table d'' = connection_table d.
Proof.
  intros Hc. unfold start_sftp_ftp_services, terminate_ec2_instance.
  rewrite (start_sftp_ftp_services_method_polls _ _ _ _ _ _ _ Hc). intros Hw.
  apply wait_until_running_frame in Hw as (Hx & Hct & es & He & Hte).
  cbn in Hx, Hct, He. rewrite terminate_instance_run.
  rewrite Hx by done. cbn [TaskInstance.task_id]. rewrite lookup_insert_eq.
  eexists. split; [reflexivity|]. cbn. split; [|done].
  rewrite He, <- !app_assoc, !terminated_app, Hte. reflexivity.
Qed.

(** The start task fails at its second poll; the instance is terminated
    all the same. *)
Lemma terminate_instance_after_start_sample :
  exists (d' d'' : Deployment),
    start_sftp_ftp_services sample_world sample_ec2_unknown_instance 5 sample_deployment
    = Some (Raise (OtherError "InvalidInstanceID.NotFound"), d')
    /\ terminate_ec2_instance sample_world sample_ec2_unknown_instance d' = Some (Ok tt, d'')
    /\ terminated (effects d'') = ["i-0abc"].
Proof.
  destruct (start_sftp_ftp_services sample_world sample_ec2_unknown_instance 5
              sample_deployment) as [[r d']|] eqn:Hstart; [|by vm_compute in Hstart].
  assert (r = Raise (OtherError "InvalidInstanceID.NotFound")) as ->.
  { vm_compute in Hstart. by injection Hstart as <- _. }
  destruct (terminate_instance_after_start sample_world sample_ec2_unknown_instance 5
              sample_deployment d' _ "i-0abc" [] eq_refl Hstart) as (d'' & Ht & Hte & _).
  by exists d', d''.
Defined.

(** X6: once the start task has pushed the public address, the connection
    task returns, from any table whose rows sit under their own identifier:
    [sftp_conn] and [ftp_conn] then hold connections to that address, with
    the configured (or [not_set]) login and password, where an empty
    password is stored as no password; every other row is as before, the
    rows still sit under their own identifier, and the XCom table is
    untouched.  An older row with one of the two identifiers is deleted
    first, so that adding the new one never breaks uniqueness. *)
Theorem create_sftp_ftp_airflow_connection_rows (w : World) (ti : TaskInstance.t)
    (d : Deployment) (ip : string) :
  well_keyed (connection_table d) ->
  xcom_table d !! ("start_sftp_ftp_services", "instance_public_ip") = Some ip ->
  exists d' : Deployment,
    create_sftp_ftp_airflow_connection w ti d = Some (Ok tt, d')
    /\ connection_table d' !! "sftp_conn"
       = Some {| Connection.conn_id := "sftp_conn";
                 Connection.conn_type := "sftp";
                 Connection.host := ip;
                 Connection.login := os_getenv w "SFTP_USERNAME" "not_set";
                 Connection.password :=
                   match os_getenv w "SFTP_PASSWORD" "not_set" with
                   | EmptyString => None
                   | String a s => Some (String a s)
                   end |}
    /\ connection_table d' !! "ftp_conn"
       = Some {| Connection.conn_id := "ftp_conn";
                 Connection.conn_type := "ftp";
                 Connection.host := ip;
                 Connection.login := os_getenv w "FTP_USERNAME" "not_set";
                 Connection.password :=
                   match os_getenv w "FTP_PASSWORD" "not_set" with
                   | EmptyString => None
                   | String a s => Some (String a s)
                   end |}
    /\ (forall conn_id : string,
          conn_id <> "sftp_conn" -> conn_id <> "ftp_conn" ->
          connection_table d' !! conn_id = connection_table d !! conn_id)
    /\ well_keyed (connection_table d')
    /\ xcom_table d' = xcom_table d.
Proof.
  intros Hwk Hip. rewrite (create_sftp_ftp_airflow_connection_run w ti d ip Hwk Hip).
  eexists. split; [reflexivity|]. cbn [xcom_table connection_table].
  split.
  { rewrite lookup_insert_ne, lookup_insert_eq by done.
    unfold sftp_conn_of, Connection_init, SFTP_USERNAME, SFTP_PASSWORD.
    by destruct (os_getenv w "SFTP_PASSWORD" "not_set"). }
  split.
  { rewrite lookup_insert_eq.
    unfold ftp_conn_of, Connection_init, FTP_USERNAME, FTP_PASSWORD.
    by destruct (os_getenv w "FTP_PASSWORD" "not_set"). }
  split; [intros conn_id H1 H2; by rewrite !lookup_insert_ne|].
  split; [|done].
  apply (well_keyed_insert _ (ftp_conn_of w ip)), (well_keyed_insert _ (sftp_conn_of w ip)), Hwk.
Qed.

(** The older [sftp_conn] row of the sample is replaced, and [ftp_conn] is
    new; the empty [SFTP_PASSWORD] leaves [sftp_conn] without password. *)
Lemma create_sftp_ftp_airflow_connection_rows_sample :
  exists d' : Deployment,
    create_sftp_ftp_default_airflow_connection sample_world_empty_password
      sample_deployment_started
    = Some (Ok tt, d')
    /\ Connection.host <$> connection_table sample_deployment_started !! "sftp_conn"
       = Some "198.51.100.1"
    /\ Connection.host <$> connection_table d' !! "sftp_conn" = Some "203.0.113.7"
    /\ Connection.password <$> connection_table d' !! "sftp_conn" = Some None
    /\ Connection.host <$> connection_table d' !! "ftp_conn" = Some "203.0.113.7"
    /\ Connection.password <$> connection_table d' !! "ftp_conn" = Some (Some "not_set").
Proof.
  assert (well_keyed (connection_table sample_deployment_started)) as Hwk.
  { intros k c. cbn. rewrite lookup_singleton. case_decide; [by intros [= <-]|done]. }
  destruct (create_sftp_ftp_airflow_connection_rows sample_world_empty_password
              {| TaskInstance.task_id := "create_sftp_ftp_default_airflow_connection";
                 TaskInstance.state := PyStr "running" |}
              sample_deployment_started "203.0.113.7" Hwk eq_refl)
    as (d' & Hrun & Hsftp & Hftp & _).
  exists d'. split; [exact Hrun|]. split; [reflexivity|]. by rewrite Hsftp, Hftp.
Defined.

(** X7: the connection task is idempotent on the connection table: run a
    second time, it returns with the same table, and logs that it deleted
    both rows before creating them; the first run logs for each of the two
    rows whether it was there. *)
Theorem create_sftp_ftp_airflow_connection_twice (w : World) (ti : TaskInstance.t)
    (d : Deployment) (ip : string) :
  well_keyed (connection_table d) ->
  xcom_table d !! ("start_sftp_ftp_services", "instance_public_ip") = Some ip ->
  exists (d1 d2 : Deployment) (es1 es2 : list Effect),
    create_sftp_ftp_airflow_connection w ti d = Some (Ok tt, d1)
    /\ create_sftp_ftp_airflow_connection w ti d1 = Some (Ok tt, d2)
    /\ connection_table d2 = connection_table d1
    /\ effects d1 = effects d ++ es1
    /\ effects d2 = effects d1 ++ es2
    /\ logged es1
       = [ (if connection_table d !! "sftp_conn" is Some _
            then "Connection sftp_conn deleted."
            else "Connection sftp_conn doesn't exist.");
           "Connection sftp_conn is created";
           (if connection_table d !! "ftp_conn" is Some _
            then "Connection ftp_conn deleted."
            else "Connection ftp_conn doesn't exist.");
           "Connection ftp_conn is created" ]
    /\ logged es2
       = [ "Connection sftp_conn deleted."; "Connection sftp_conn is created";
           "Connection ftp_conn deleted."; "Connection ftp_conn is created" ].
Proof.
  intros Hwk Hip. rewrite (create_sftp_ftp_airflow_connection_run w ti d ip Hwk Hip).
  eexists _, _, _, _. split; [reflexivity|].
  rewrite create_sftp_ftp_airflow_connection_run with (ip := ip); cbn [xcom_table connection_table];
    [|by apply (well_keyed_insert _ (ftp_conn_of w ip)),
              (well_keyed_insert _ (sftp_conn_of w ip))|done].
  split; [reflexivity|]. cbn [xcom_table connection_table effects].
  split; [|split; [reflexivity|split; [reflexivity|split]]].
  - apply map_eq. intros k. rewrite !lookup_insert.
    repeat case_decide; congruence.
  - rewrite logged_app.
    by destruct (connection_table d !! "sftp_conn"), (connection_table d !! "ftp_conn").
  - rewrite lookup_insert_ne, lookup_insert_eq by done. by rewrite lookup_insert_eq.
Qed.

(** The sample table has an older [sftp_conn] row and no [ftp_conn] row. *)
Lemma create_sftp_ftp_airflow_connection_twice_sample :
  exists (d0 d1 : Deployment) (es1 : list Effect),
    start_sftp_ftp_services sample_world sample_ec2 3 sample_deployment = Some (Ok tt, d0)
    /\ create_sftp_ftp_default_airflow_connection sample_world d0 = Some (Ok tt, d1)
    /\ effects d1 = effects d0 ++ es1
    /\ logged es1
       = [ "Connection sftp_conn deleted."; "Connection sftp_conn is created";
           "Connection ftp_conn doesn't exist."; "Connection ftp_conn is created" ].
Proof.
  destruct (start_sftp_ftp_services sample_world sample_ec2 3 sample_deployment)
    as [[r d0]|] eqn:Hstart; [|by vm_compute in Hstart].
  assert (r = Ok tt
          /\ connection_table d0 = connection_table sample_deployment
          /\ xcom_table d0 !! ("start_sftp_ftp_services", "instance_public_ip")
             = Some "203.0.113.7") as (-> & Hct & Hip).
  { vm_compute in Hstart. injection Hstart as <- <-. by vm_compute. }
  assert (well_keyed (connection_table d0)) as Hwk.
  { rewrite Hct. intros k c. cbn. rewrite lookup_singleton.
    case_decide; [by intros [= <-]|done]. }
  destruct (create_sftp_ftp_airflow_connection_twice sample_world
              {| TaskInstance.task_id := "create_sftp_ftp_default_airflow_connection";
                 TaskInstance.state := PyStr "running" |} d0 "203.0.113.7" Hwk Hip)
    as (d1 & d2 & es1 & es2 & H1 & _ & _ & He1 & _ & Hl1 & _).
  exists d0, d1, es1. split; [done|]. split; [exact H1|]. split; [exact He1|].
  rewrite Hl1, Hct. reflexivity.
Defined.

(** X8: without a pushed public address (the start task did not get that
    far) the connection task fails with [IndexError] at its first line: it
    changes no row, commits nothing and logs nothing. *)
Theorem create_sftp_ftp_airflow_connection_without_address (w : World) (ti : TaskInstance.t)
    (d : Deployment) :
  xcom_table d !! ("start_sftp_ftp_services", "instance_public_ip") = None ->
  exists msg : string,
    create_sftp_ftp_airflow_connection w ti d = Some (Raise (IndexError msg), d).
Proof.
  intros Hip. exists "0". by apply create_sftp_ftp_airflow_connection_missing.
Qed.

Lemma create_sftp_ftp_airflow_connection_without_address_sample :
  exists msg : string,
    create_sftp_ftp_default_airflow_connection sample_world sample_deployment
    = Some (Raise (IndexError msg), sample_deployment).
Proof.
  exact (create_sftp_ftp_airflow_connection_without_address sample_world _ sample_deployment
           eq_refl).
Defined.

(** X9: without a pushed instance identifier the termination task fails
    with [IndexError] and asks EC2 to terminate nothing. *)
Theorem terminate_instance_without_instance (w : World) (ec2 : Ec2) (ti : TaskInstance.t)
    (d : Deployment) :
  xcom_table d !! ("start_sftp_ftp_services", "ec2_instance_id") = None ->
  exists (msg : string) (d' : Deployment),
    terminate_instance w ec2 ti d = Some (Raise (IndexError msg), d')
    /\ terminated (effects d') = terminated (effects d)
    /\ xcom_table d' = xcom_table d
    /\ connection_table d' = connection_table d.
Proof.
  intros Hid. rewrite terminate_instance_run. unfold EC2_INSTANCE_ID_KEY. rewrite Hid.
  eexists _, _. split; [reflexivity|]. cbn. by rewrite terminated_app, app_nil_r.
Qed.

Lemma terminate_instance_without_instance_sample :
  exists (msg : string) (d' : Deployment),
    terminate_ec2_instance sample_world sample_ec2 sample_deployment
    = Some (Raise (IndexError msg), d')
    /\ terminated (effects d') = [].
Proof.
  destruct (terminate_instance_without_instance sample_world sample_ec2
              {| TaskInstance.task_id := "terminate_instance";
                 TaskInstance.state := PyStr "running" |} sample_deployment eq_refl)
    as (msg & d' & Ht & Hte & _).
  by exists msg, d'.
Defined.

(** X10: the start task and the connection task compose: when EC2 reports
    the created instance as running at an address after [k] other reports,
    the start task (with fuel for more than [k] polls) followed by the
    connection task returns, and both connections point to that address. *)
Theorem sftp_ftp_connections_after_start (w : World) (ec2 : Ec2) (d : Deployment)
    (instance_id : string) (others : list string) (k : nat) (ip : string) (fuel : nat) :
  create_instances ec2 (create_args w) = Ok (instance_id :: others) ->
  running_after ec2 (describe_calls d) instance_id k ip ->
  (k < fuel)%nat ->
  well_keyed (connection_table d) ->
  exists d' : Deployment,
    (start_sftp_ftp_services w ec2 fuel;; create_sftp_ftp_default_airflow_connection w) d
    = Some (Ok tt, d')
    /\ Connection.host <$> connection_table d' !! "sftp_conn" = Some ip
    /\ Connection.host <$> connection_table d' !! "ftp_conn" = Some ip.
Proof.
  intros Hc Hrun Hfuel Hwk.
  unfold start_sftp_ftp_services, create_sftp_ftp_default_airflow_connection.
  unfold mbind, Task_bind.
  rewrite (start_sftp_ftp_services_method_polls _ _ _ _ _ _ _ Hc).
  match goal with |- context [wait_until_running _ _ ?ti _ fuel ?d0] =>
    destruct (wait_until_running_returns w ec2 ti instance_id k ip fuel d0 Hrun Hfuel)
      as (d1 & es & -> & Hx & Hct & _)
  end.
  cbn in Hx, Hct.
  rewrite create_sftp_ftp_airflow_connection_run with (ip := ip);
    [|by rewrite Hct|by rewrite Hx, lookup_insert_eq].
  eexists. split; [reflexivity|]. cbn [connection_table].
  split; [by rewrite lookup_insert_ne, lookup_insert_eq|by rewrite lookup_insert_eq].
Qed.

Lemma sftp_ftp_connections_after_start_sample :
  exists d' : Deployment,
    (start_sftp_ftp_services sample_world sample_ec2 3;;
     create_sftp_ftp_default_airflow_connection sample_world) sample_deployment
    = Some (Ok tt, d')
    /\ Connection.host <$> connection_table d' !! "sftp_conn" = Some "203.0.113.7"
    /\ Connection.host <$> connection_table d' !! "ftp_conn" = Some "203.0.113.7".
Proof.
  apply (sftp_ftp_connections_after_start sample_world sample_ec2 sample_deployment
           "i-0abc" [] 2 "203.0.113.7" 3).
  - reflexivity.
  - split.
    + intros i Hi. exists {| State_Name := "pending"; PublicIpAddress := None |}.
      split; [|done]. exists [], []. cbn.
      destruct i as [|[|i]]; [reflexivity|reflexivity|lia].
    + by exists [], [].
  - lia.
  - intros k c. cbn. rewrite lookup_singleton. case_decide; [by intros [= <-]|done].
Defined.

(** X11: when EC2 fails to create the instance, or returns no instance
    (then with [IndexError]), the start task fails before it pushes
    anything, sleeps or polls, whatever the fuel. *)
Theorem start_sftp_ftp_services_no_instance (w : World) (ec2 : Ec2) (ti : TaskInstance.t)
    (fuel : nat) (d : Deployment) (e : Exn) :
  create_instances ec2 (create_args w) = Raise e
  \/ (create_instances ec2 (create_args w) = Ok []
      /\ e = IndexError "list index out of range") ->
  exists (d' : Deployment) (es : list Effect),
    start_sftp_ftp_services_method w ec2 ti fuel d = Some (Raise e, d')
    /\ xcom_table d' = xcom_table d
    /\ describe_calls d' = describe_calls d
    /\ effects d' = effects d ++ es
    /\ slept es = 0.
Proof.
  intros Hc. unfold start_sftp_ftp_services_method. fold (create_args w). task_run.
  destruct Hc as [->|[-> ->]]; task_run.
  - eexists _, _. split; [reflexivity|]. cbn. by rewrite <- !app_assoc.
  - eexists _, _. split; [reflexivity|]. cbn. by rewrite <- !app_assoc.
Qed.

Lemma start_sftp_ftp_services_no_instance_sample :
  exists (d' : Deployment) (es : list Effect),
    start_sftp_ftp_services sample_world sample_ec2_no_instance 0 sample_deployment
    = Some (Raise (IndexError "list index out of range"), d')
    /\ xcom_table d' = xcom_table sample_deployment
    /\ describe_calls d' = describe_calls sample_deployment
    /\ effects d' = effects sample_deployment ++ es
    /\ slept es = 0.
Proof.
  apply (start_sftp_ftp_services_no_instance sample_world sample_ec2_no_instance
           {| TaskInstance.task_id := "start_sftp_ftp_services";
              TaskInstance.state := PyStr "running" |} 0 sample_deployment).
  right. split; reflexivity.
Defined.

(** ** More on the trigger-set builder *)

Lemma string_length_app (s1 s2 : string) :
  String.length (s1 +:+ s2) = (String.length s1 + String.length s2)%nat.
Proof.
  induction s1 as [|a s1 IH]; [done|].
  change (S (String.length (s1 +:+ s2)) = S (String.length s1 + String.length s2)).
  by rewrite IH.
Qed.

Lemma string_app_inj_length (s1 s2 t1 t2 : string) :
  String.length s1 = String.length s2 -> s1 +:+ t1 = s2 +:+ t2 -> s1 = s2.
Proof.
  revert s2. induction s1 as [|a s1 IH]; intros [|b s2] Hlen Heq; try done.
  change (String a (s1 +:+ t1) = String b (s2 +:+ t2)) in Heq.
  injection Heq as -> Heq. f_equal. apply IH; [|done]. by injection Hlen.
Qed.

(** The run identifier of a workflow triggered under its own name
    determines that name. *)
Lemma run_id_of_self_inj (T n1 n2 : string) :
  run_id_of T {| spec_task_id := n1; spec_target_id := n1 |}
  = run_id_of T {| spec_task_id := n2; spec_target_id := n2 |} ->
  n1 = n2.
Proof.
  unfold run_id_of. cbn [spec_task_id spec_target_id]. intros Heq.
  eapply string_app_inj_length; [|exact Heq].
  apply (f_equal String.length) in Heq. rewrite !string_length_app in Heq. lia.
Qed.

(** X12: the builder distributes over the concatenation of spec lists: on
    [l1 ++ l2] it returns the tasks and the run identifiers of [l1]
    followed by those of [l2], run from the DAG that [l1] leaves, and it
    fails when it fails on [l1] or, else, on [l2]. *)
Theorem prepare_dag_dependency_app (airflow : Airflow) (l1 l2 : list PyDict) (T : string)
    (dag : DagContext) :
  prepare_dag_dependency airflow (l1 ++ l2) T dag
  = match prepare_dag_dependency airflow l1 T dag with
    | (Raise e, dag1) => (Raise e, dag1)
    | (Ok (tasks1, ids1), dag1) =>
        match prepare_dag_dependency airflow l2 T dag1 with
        | (Raise e, dag2) => (Raise e, dag2)
        | (Ok (tasks2, ids2), dag2) => (Ok (tasks1 ++ tasks2, ids1 ++ ids2), dag2)
        end
    end.
Proof. apply prepare_loop_app. Qed.

(** X13: whenever the builder returns on workflows triggered under their
    own name, as all of the script's are, the run identifiers are pairwise
    distinct exactly when the names are, and inside a DAG they always are,
    since a repeated name makes the constructor raise; for other mappings
    two accepted specs can get the same run identifier. *)
Theorem prepare_dag_dependency_distinct_run_ids (airflow : Airflow) (names : list string)
    (T : string) (dag dag' : DagContext) (tasks : list TriggerDagRunOperator)
    (ids : list string) :
  prepare_dag_dependency airflow (map (fun n => [(n, n)]) names) T dag
  = (Ok (tasks, ids), dag') ->
  (NoDup ids <-> NoDup names)
  /\ (is_Some dag -> NoDup names /\ NoDup ids)
  /\ exists (tasks' : list TriggerDagRunOperator) (id : string),
       prepare_dag_dependency airflow [[("a", "b_c")]; [("a_b", "c")]] T (Some [])
       = (Ok (tasks', [id; id]), Some ["a"; "a_b"]).
Proof.
  intros Hrun.
  pose (self := fun n : string => {| spec_task_id := n; spec_target_id := n |}).
  assert (map (fun n : string => [(n, n)]) names = map spec_dict (map self names)) as Hdicts
    by (by rewrite map_map).
  destruct (prepare_loop_Ok airflow T _ _ _ _ Hrun) as (specs & Hs & Hacc).
  rewrite Hdicts, mapM_first_spec_dict in Hs. injection Hs as <-.
  rewrite Hdicts in Hrun.
  rewrite (prepare_loop_accepted airflow T _ _ dag (mapM_first_spec_dict _) Hacc) in Hrun.
  injection Hrun as _ <- _. rewrite !map_map in *. cbn [spec_task_id self] in Hacc.
  assert (NoDup (map (fun n => run_id_of T (self n)) names) <-> NoDup names) as Hnd.
  { split.
    - apply (NoDup_fmap_1 (fun n => run_id_of T (self n))).
    - apply (NoDup_fmap_2_strong (fun n => run_id_of T (self n))).
      intros n1 n2 _ _. apply run_id_of_self_inj. }
  split; [exact Hnd|]. split.
  - intros [tasks0 ->]. destruct Hacc as (_ & Hnames & _).
    rewrite map_id in Hnames. split; [done|by apply Hnd].
  - eexists _, ("a_b_c_" +:+ T). vm_compute. reflexivity.
Qed.

(** Two workflows under their own names, in an empty DAG. *)
Lemma prepare_dag_dependency_distinct_run_ids_sample :
  NoDup ["x_x_T"; "y_y_T"]
  /\ exists (tasks' : list TriggerDagRunOperator) (id : string),
       prepare_dag_dependency sample_airflow [[("a", "b_c")]; [("a_b", "c")]] "T" (Some [])
       = (Ok (tasks', [id; id]), Some ["a"; "a_b"]).
Proof.
  destruct (prepare_dag_dependency_distinct_run_ids sample_airflow ["x"; "y"] "T"
              (Some []) (Some ["x"; "y"])
              (map (trigger_task_of "T")
                   [ {| spec_task_id := "x"; spec_target_id := "x" |};
                     {| spec_task_id := "y"; spec_target_id := "y" |} ])
              ["x_x_T"; "y_y_T"] eq_refl) as (_ & Hdag & Hcollide).
  split; [|exact Hcollide]. apply Hdag. by eexists.
Defined.

(** ** More on the run-report aggregator *)

Lemma join_cons (s : string) (l : list string) : join (s :: l) = s +:+ join l.
Proof. reflexivity. Qed.

Lemma string_app_nil_r (s : string) : s +:+ EmptyString = s.
Proof.
  induction s as [|a s IH]; [done|].
  change (String a (s +:+ EmptyString) = String a s). by rewrite IH.
Qed.

Lemma has_failing_false (dr : DagRun.t) :
  has_failing dr = false
  <-> forall ti : TaskInstance.t,
        ti ∈ DagRun.task_instances dr ->
        TaskInstance.task_id ti <> "end" -> TaskInstance.task_id ti <> "get_report" ->
        TaskInstance.state ti = PyStr "success".
Proof.
  rewrite <- not_true_iff_false, has_failing_true. split.
  - intros Hno ti Hin Hend Hrep.
    destruct (py_eq (TaskInstance.state ti) "success") eqn:Hst; [by apply py_eq_true|].
    apply py_eq_false in Hst. destruct Hno. by exists ti.
  - intros Hall (ti & Hin & Hend & Hrep & Hst). by apply Hst, Hall.
Qed.

Lemma failed_dag_count_of_zero (runs : list DagRun.t) :
  failed_dag_count_of runs = 0 <-> Forall (fun dr => has_failing dr = false) runs.
Proof.
  unfold failed_dag_count_of. induction runs as [|dr runs IH]; [done|].
  rewrite filter_cons, Forall_cons. destruct (has_failing dr) eqn:Hf.
  - rewrite decide_True by done. cbn [length]. split; [lia|]. by intros [? _].
  - rewrite decide_False by done. rewrite IH. tauto.
Qed.

Lemma failure_blocks_nil (runs : list DagRun.t) :
  flat_map failure_block runs = [] <-> Forall (fun dr => has_failing dr = false) runs.
Proof.
  induction runs as [|dr runs IH]; [done|].
  cbn [flat_map]. rewrite Forall_cons, <- IH. unfold failure_block.
  destruct (has_failing dr); [|tauto].
  split; [done|]. by intros [? _].
Qed.

Lemma failed_dag_count_of_bounds (runs : list DagRun.t) :
  0 <= failed_dag_count_of runs <= dag_count_of runs.
Proof.
  unfold failed_dag_count_of, dag_count_of.
  pose proof (length_filter (fun dr => has_failing dr = true) runs). lia.
Qed.

(** X14: the loop over the loaded runs keeps the failed count between 0
    and the number of runs, so the success count of the report is never
    negative; the failed count is 0 exactly when the message body is
    empty, and exactly when every child task, other than [end] and
    [get_report], of every loaded run succeeded. *)
Theorem dag_run_loop_counts (runs : list DagRun.t) (tr : list Event) :
  exists (dag_count failed_dag_count : Z) (message_list : list string),
    for_each dag_run_step (0, 0, []) runs tr
    = (Ok (dag_count, failed_dag_count, message_list), tr ++ map GetTaskInstances runs)
    /\ dag_count = Z.of_nat (length runs)
    /\ 0 <= failed_dag_count <= dag_count
    /\ (failed_dag_count = 0 <-> message_list = [])
    /\ (failed_dag_count = 0
        <-> forall (dr : DagRun.t) (ti : TaskInstance.t),
              dr ∈ runs -> ti ∈ DagRun.task_instances dr ->
              TaskInstance.task_id ti <> "end" -> TaskInstance.task_id ti <> "get_report" ->
              TaskInstance.state ti = PyStr "success").
Proof.
  eexists _, _, _. rewrite for_each_dag_run_step, !Z.add_0_l, app_nil_l.
  split; [reflexivity|]. split; [reflexivity|].
  split; [apply failed_dag_count_of_bounds|].
  rewrite failed_dag_count_of_zero, failure_blocks_nil. split; [done|].
  rewrite Forall_forall. split.
  - intros Hall dr ti Hdr. by apply has_failing_false, Hall.
  - intros Hall dr Hdr. apply has_failing_false. intros ti. by apply Hall.
Qed.

(** X15: when every child task, other than [end] and [get_report], of
    every loaded run succeeded, the report has no failure details: after
    the header come the three counters, with all runs as successes and 0
    failed, then the warning about the master run's own tasks, if any, and
    the link. *)
Theorem get_report_all_success (w : World) (dag_run_ids : list string) (context : Context)
    (tr : list Event) (url : string) :
  os_environ w !! "AIRFLOW__WEBSERVER__BASE_URL" = Some url ->
  (forall (dr : DagRun.t) (ti : TaskInstance.t),
     dr ∈ dag_run_table w -> DagRun.run_id dr ∈ dag_run_ids ->
     ti ∈ DagRun.task_instances dr ->
     TaskInstance.task_id ti <> "end" -> TaskInstance.task_id ti <> "get_report" ->
     TaskInstance.state ti = PyStr "success") ->
  let total := str_int (Z.of_nat (length (loaded_runs w dag_run_ids))) in
  let text :=
    join (header_block w context)
    +:+ ("*Total DAGS*: " +:+ total +:+ " " +:+ LF)
    +:+ ("*Success DAGS*: " +:+ total +:+ " :green_apple: " +:+ LF)
    +:+ ("*Failed DAGS*: 0 :apple: " +:+ LF +:+ " " +:+ LF)
    +:+ join (own_failures context)
    +:+ deployment_line url in
  report_strings (drop (length tr) (snd (get_report w dag_run_ids context tr))) = [text; text].
Proof.
  intros Hurl Hall total text.
  assert (failed_dag_count_of (loaded_runs w dag_run_ids) = 0) as Hzero.
  { apply failed_dag_count_of_zero, Forall_forall. intros dr Hdr.
    apply list_elem_of_filter in Hdr as [Hid Hdr].
    apply has_failing_false. intros ti. by apply Hall. }
  rewrite get_report_report_strings, Hurl.
  assert (report_text w context (loaded_runs w dag_run_ids) url = text) as ->; [|done].
  unfold report_text, text, total, summary_lines, failure_details, dag_count_of.
  rewrite Hzero, Z.sub_0_r. cbn [Z.ltb Z.compare app].
  rewrite join_app. f_equal.
  rewrite !join_cons, join_app, join_cons. cbn [join fold_right].
  by rewrite string_app_nil_r.
Qed.

(** Only [r1] and [r3] are loaded; the failed run [r3] has no failed child
    task but [end]. *)
Lemma get_report_all_success_sample :
  exists rest : string,
    report_strings (snd (get_report sample_world ["r1"; "r2"; "r3"] sample_context []))
    = [ join (header_block sample_world sample_context)
        +:+ ("*Total DAGS*: 2 " +:+ LF)
        +:+ ("*Success DAGS*: 2 :green_apple: " +:+ LF)
        +:+ ("*Failed DAGS*: 0 :apple: " +:+ LF +:+ " " +:+ LF) +:+ rest;
        join (header_block sample_world sample_context)
        +:+ ("*Total DAGS*: 2 " +:+ LF)
        +:+ ("*Success DAGS*: 2 :green_apple: " +:+ LF)
        +:+ ("*Failed DAGS*: 0 :apple: " +:+ LF +:+ " " +:+ LF) +:+ rest ].
Proof.
  eexists.
  pose proof (get_report_all_success sample_world ["r1"; "r2"; "r3"] sample_context []
                "http://localhost:8080" eq_refl) as Hall.
  cbn [length] in Hall. rewrite drop_0 in Hall. rewrite Hall; [reflexivity|].
  intros dr ti Hdr _ Hti Hend Hrep.
  apply list_elem_of_In in Hdr. cbn in Hdr. destruct Hdr as [<-|[<-|[]]];
    apply list_elem_of_In in Hti; cbn in Hti;
    destruct Hti as [<-|[<-|[]]]; first [reflexivity|by destruct Hend].
Defined.

(** X16: the report warns about the master run's own tasks exactly when
    one of them is in state [failed]: the warning comes between the
    counters (or the failure details) and the link, and lists those tasks
    in order, one line each; tasks named [end] or [get_report] are not left
    out here, and tasks in any other state are not listed. *)
Theorem get_report_own_failures (w : World) (dag_run_ids : list string) (context : Context)
    (tr : list Event) (url : string) :
  os_environ w !! "AIRFLOW__WEBSERVER__BASE_URL" = Some url ->
  let failed :=
    filter (fun ti => py_eq (TaskInstance.state ti) "failed" = true)
           (DagRun.task_instances (dag_run context)) in
  let warning :=
    match failed with
    | [] => EmptyString
    | _ :: _ =>
        (LF +:+ "Some of Master DAG tasks failed, please check with deployment link below "
            +:+ LF)
        +:+ join (map (fun ti => ":red_circle: " +:+ TaskInstance.task_id ti +:+ " " +:+ LF)
                      failed)
    end in
  let text :=
    join (header_block w context ++ summary_lines (loaded_runs w dag_run_ids)
          ++ failure_details (loaded_runs w dag_run_ids))
    +:+ warning +:+ deployment_line url in
  report_strings (drop (length tr) (snd (get_report w dag_run_ids context tr))) = [text; text].
Proof.
  intros Hurl failed warning text.
  rewrite get_report_report_strings, Hurl.
  assert (report_text w context (loaded_runs w dag_run_ids) url = text) as ->; [|done].
  unfold report_text, text, warning, own_failures. fold failed.
  rewrite !join_app. change (join [deployment_line url]) with (deployment_line url +:+ EmptyString).
  rewrite string_app_nil_r.
  destruct failed as [|ti failed'].
  - by rewrite !string_app_assoc.
  - rewrite join_cons. by rewrite !string_app_assoc.
Qed.

(** The master run of the sample has no failed task: no warning. *)
Lemma get_report_own_failures_sample :
  report_strings (snd (get_report sample_world ["r1"] sample_context []))
  = [ join (header_block sample_world sample_context
            ++ summary_lines [sample_run_r1] ++ failure_details [sample_run_r1])
      +:+ deployment_line "http://localhost:8080";
      join (header_block sample_world sample_context
            ++ summary_lines [sample_run_r1] ++ failure_details [sample_run_r1])
      +:+ deployment_line "http://localhost:8080" ].
Proof.
  pose proof (get_report_own_failures sample_world ["r1"] sample_context []
                "http://localhost:8080" eq_refl) as Hown.
  cbn [length] in Hown. rewrite drop_0 in Hown. rewrite Hown. reflexivity.
Defined.

(** X17: when the base URL is set, a call of [get_report] makes these
    calls, in this order and no others: the session query, the four pulls,
    [get_task_instances] once on every loaded run, in load order, and once
    on the master run, one [logging.info] of the report, and one Slack call
    whose message is the logged text, under the configured channel, user
    and connection (by default [#provider-alert], [airflow_app] and
    [http_slack]); it then logs an exception exactly when it raises. *)
Theorem get_report_effects (w : World) (dag_run_ids : list string) (context : Context)
    (tr : list Event) (url : string) :
  os_environ w !! "AIRFLOW__WEBSERVER__BASE_URL" = Some url ->
  exists (outcome : Result unit) (text : string),
    get_report w dag_run_ids context tr
    = (outcome,
       tr ++ [SessionQuery dag_run_ids;
              XComPull "get_airflow_version";
              XComPull "get_airflow_executor";
              XComPull "get_astro_sdk_version";
              XComPull "get_astro_cloud_provider"]
          ++ map GetTaskInstances
                 (filter (fun dr => DagRun.run_id dr ∈ dag_run_ids) (dag_run_table w))
          ++ [GetTaskInstances (dag_run context);
              LoggingInfo text;
              SlackExecute
                {| SlackWebhookOperator.task_id := "slack_alert";
                   SlackWebhookOperator.slack_webhook_conn_id :=
                     default "http_slack" (os_environ w !! "SLACK_WEBHOOK_CONN");
                   SlackWebhookOperator.message := text;
                   SlackWebhookOperator.channel :=
                     default "#provider-alert" (os_environ w !! "SLACK_CHANNEL");
                   SlackWebhookOperator.username :=
                     default "airflow_app" (os_environ w !! "SLACK_USERNAME") |}]
          ++ match outcome with
             | Ok _ => []
             | Raise _ => [LoggingException "Error occur while sending slack alert."]
             end).
Proof.
  intros Hurl. rewrite get_report_run, Hurl. cbn zeta.
  destruct (slack_execute w _) as [e|].
  - exists (Raise e), (report_text w context (loaded_runs w dag_run_ids) url).
    by rewrite <- !app_assoc.
  - exists (Ok tt), (report_text w context (loaded_runs w dag_run_ids) url).
    by rewrite app_nil_r.
Qed.

Lemma get_report_effects_sample :
  exists text : string,
    get_report sample_world ["r1"; "r2"] sample_context []
    = (Ok tt,
       [SessionQuery ["r1"; "r2"];
        XComPull "get_airflow_version";
        XComPull "get_airflow_executor";
        XComPull "get_astro_sdk_version";
        XComPull "get_astro_cloud_provider";
        GetTaskInstances sample_run_r1;
        GetTaskInstances sample_master_run;
        LoggingInfo text;
        SlackExecute
          {| SlackWebhookOperator.task_id := "slack_alert";
             SlackWebhookOperator.slack_webhook_conn_id := "http_slack";
             SlackWebhookOperator.message := text;
             SlackWebhookOperator.channel := "#provider-alert";
             SlackWebhookOperator.username := "airflow_app" |}]).
Proof.
  destruct (get_report_effects sample_world ["r1"; "r2"] sample_context []
              "http://localhost:8080" eq_refl) as (outcome & text & Hrun).
  assert (outcome = Ok tt) as ->.
  { pose proof (f_equal fst Hrun) as Hfst. cbn [fst] in Hfst. rewrite <- Hfst.
    vm_compute. reflexivity. }
  exists text. rewrite Hrun. reflexivity.
Defined.
